(** * CalculateWorkTimePy: session matching and duration aggregation

    A shallow embedding of [calculate_work_time.py] (the command-line tool)
    and of the copy of its core in [calculate_work_time_gui.py].

    - Python [str] values are modelled as [string]; a character is a code
      point below 256.
    - [datetime] values are records of six integer fields; the difference
      [(a - b).total_seconds()] of two second-resolution datetimes is the
      integer [total_seconds a b : Z].  Python computes it as a float, which
      is exact for every such difference and for sums below 2^53.
    - [start_times] is a Python [dict]: an association list without
      duplicate keys that keeps insertion order, as iteration at the end of
      [calculate_work_time] depends on it.
    - [total_time] is a [defaultdict] with default 0: a [gmap string Z].
    - The f-strings appended to [missing_start_logs] are modelled by a
      three-constructor type [diagnostic] that carries the interpolated
      values; the three texts differ in their fixed prefix. *)

From Stdlib Require Import ZArith Lia List Ascii String.
From stdpp Require Import gmap strings list fin_maps.

Local Open Scope Z_scope.

(* ===================================================================== *)
(** ** Python string primitives used by [parse_log_line] *)
(* ===================================================================== *)

Module PyStr.

(** [str.isspace] on code points below 256: TAB..CR, FS..US, space,
    NEL (0x85) and NBSP (0xA0). *)
Definition is_space (c : ascii) : bool :=
  let n := N_of_ascii c in
  ((9 <=? n) && (n <=? 13) || (28 <=? n) && (n <=? 32)
   || (n =? 133) || (n =? 160))%N.

Definition is_quote (c : ascii) : bool := Ascii.eqb c "034"%char.

Fixpoint lstrip_by (p : ascii → bool) (s : list ascii) : list ascii :=
  match s with
  | c :: s' => if p c then lstrip_by p s' else s
  | [] => []
  end.

Definition rstrip_by (p : ascii → bool) (s : list ascii) : list ascii :=
  rev (lstrip_by p (rev s)).

(** [s.strip()] is [strip_by is_space s]; stripping the double-quote
    character, as the second [strip] of [parse_log_line] does, is
    [strip_by is_quote s]. *)
Definition strip_by (p : ascii → bool) (s : list ascii) : list ascii :=
  rstrip_by p (lstrip_by p s).

(** [s.split(d)] for a one-character separator: never empty. *)
Fixpoint split (d : ascii) (s : list ascii) : list (list ascii) :=
  match s with
  | [] => [[]]
  | c :: s' =>
      if Ascii.eqb c d then [] :: split d s'
      else match split d s' with
           | p :: ps => (c :: p) :: ps
           | [] => [[c]]
           end
  end.

(** [d.join(parts)]. *)
Fixpoint join (d : ascii) (parts : list (list ascii)) : list ascii :=
  match parts with
  | [] => []
  | [p] => p
  | p :: ps => p ++ d :: join d ps
  end.

End PyStr.

(* ===================================================================== *)
(** ** [datetime] and [datetime.strptime(_, DATE_FORMAT)] *)
(* ===================================================================== *)

Record datetime : Type := mk_datetime {
  dt_year : Z; dt_month : Z; dt_day : Z;
  dt_hour : Z; dt_minute : Z; dt_second : Z
}.

Global Instance datetime_eq_dec : EqDecision datetime.
Proof. solve_decision. Defined.

Module PyDatetime.

Definition is_leap (y : Z) : bool :=
  (y mod 4 =? 0) && (negb (y mod 100 =? 0) || (y mod 400 =? 0)).

Definition days_in_month (y m : Z) : Z :=
  if (m =? 2) then (if is_leap y then 29 else 28)
  else if (m =? 4) || (m =? 6) || (m =? 9) || (m =? 11) then 30
  else 31.

Definition days_before_year (year : Z) : Z :=
  let y := year - 1 in
  y * 365 + y / 4 - y / 100 + y / 400.

(** Days of the year that precede the first day of month [m]. *)
Definition days_before_month (y m : Z) : Z :=
  nth (Z.to_nat m)
      [0; 0; 31; 59; 90; 120; 151; 181; 212; 243; 273; 304; 334] 0
  + (if (2 <? m) && is_leap y then 1 else 0).

(** [date.toordinal()]: 1 for 0001-01-01. *)
Definition toordinal (d : datetime) : Z :=
  days_before_year (dt_year d) + days_before_month (dt_year d) (dt_month d)
  + dt_day d.

(** Seconds from the start of day 0 of the proleptic calendar. *)
Definition seconds_of (d : datetime) : Z :=
  toordinal d * 86400 + dt_hour d * 3600 + dt_minute d * 60 + dt_second d.

(** The checks of the [datetime] constructor. *)
Definition valid (d : datetime) : bool :=
  (1 <=? dt_year d) && (dt_year d <=? 9999)
  && (1 <=? dt_month d) && (dt_month d <=? 12)
  && (1 <=? dt_day d) && (dt_day d <=? days_in_month (dt_year d) (dt_month d))
  && (0 <=? dt_hour d) && (dt_hour d <=? 23)
  && (0 <=? dt_minute d) && (dt_minute d <=? 59)
  && (0 <=? dt_second d) && (dt_second d <=? 59).

End PyDatetime.

(** [(a - b).total_seconds()]. *)
Definition total_seconds (a b : datetime) : Z :=
  PyDatetime.seconds_of a - PyDatetime.seconds_of b.

(** Exceptions a [try] body can raise here. *)
Inductive exn : Type := ValueError.

Inductive exc (A : Type) : Type :=
| Ret (a : A)
| Raise (e : exn).
Arguments Ret {A} a.
Arguments Raise {A} e.

Global Instance exc_ret : MRet exc := fun A a => Ret a.

Global Instance exc_bind : MBind exc := fun A B k m =>
  match m with
  | Ret a => k a
  | Raise e => Raise e
  end.

(** The regular expression that [_strptime] builds for
    ["%Y-%m-%d %H:%M:%S"], as a backtracking matcher: a matcher returns its
    successes in the order the regex engine tries them. *)
Module Regex.

Definition matcher (A : Type) : Type := list ascii → list (A * list ascii).

Definition is_digit (c : ascii) : bool :=
  let n := N_of_ascii c in ((48 <=? n) && (n <=? 57))%N.

Definition digit_val (c : ascii) : Z := Z.of_N (N_of_ascii c) - 48.

(** One digit whose value lies in [lo..hi]. *)
Definition digit_in (lo hi : Z) : matcher Z := fun s =>
  match s with
  | c :: s' =>
      if is_digit c && (lo <=? digit_val c) && (digit_val c <=? hi)
      then [(digit_val c, s')] else []
  | [] => []
  end.

Definition lit (c : ascii) : matcher unit := fun s =>
  match s with
  | c' :: s' => if Ascii.eqb c' c then [(tt, s')] else []
  | [] => []
  end.

Definition seq {A B C : Type} (f : A → B → C) (p : matcher A) (q : matcher B)
  : matcher C := fun s =>
  flat_map (fun '(a, s1) => List.map (fun '(b, s2) => (f a b, s2)) (q s1)) (p s).

Definition alt {A : Type} (ps : list (matcher A)) : matcher A := fun s =>
  flat_map (fun p => p s) ps.

Definition two (lo1 hi1 lo2 hi2 : Z) : matcher Z :=
  seq (fun a b => 10 * a + b) (digit_in lo1 hi1) (digit_in lo2 hi2).

(** [\s+], greedy: the longest run first, then shorter ones. *)
Fixpoint spaces1 (s : list ascii) : list (unit * list ascii) :=
  match s with
  | c :: s' => if PyStr.is_space c then spaces1 s' ++ [(tt, s')] else []
  | [] => []
  end.

(** [(?P<Y>\d\d\d\d)] *)
Definition re_Y : matcher Z :=
  seq (fun a b => 100 * a + b) (two 0 9 0 9) (two 0 9 0 9).
(** [(?P<m>1[0-2]|0[1-9]|[1-9])] *)
Definition re_m : matcher Z :=
  alt [two 1 1 0 2; two 0 0 1 9; digit_in 1 9].
(** [(?P<d>3[0-1]|[1-2]\d|0[1-9]|[1-9]| [1-9])] *)
Definition re_d : matcher Z :=
  alt [two 3 3 0 1; two 1 2 0 9; two 0 0 1 9; digit_in 1 9;
       seq (fun _ b => b) (lit " "%char) (digit_in 1 9)].
(** [(?P<H>2[0-3]|[0-1]\d|\d)] *)
Definition re_H : matcher Z :=
  alt [two 2 2 0 3; two 0 1 0 9; digit_in 0 9].
(** [(?P<M>[0-5]\d|\d)] *)
Definition re_M : matcher Z :=
  alt [two 0 5 0 9; digit_in 0 9].
(** [(?P<S>6[0-1]|[0-5]\d|\d)] *)
Definition re_S : matcher Z :=
  alt [two 6 6 0 1; two 0 5 0 9; digit_in 0 9].

Definition skip {A B : Type} (p : matcher A) (q : matcher B) : matcher B :=
  seq (fun _ b => b) p q.

Definition date_format : matcher datetime :=
  seq (fun y k => k y) re_Y
    (skip (lit "-"%char)
      (seq (fun m k y => k y m) re_m
        (skip (lit "-"%char)
          (seq (fun d k y m => k y m d) re_d
            (skip spaces1
              (seq (fun h k y m d => k y m d h) re_H
                (skip (lit ":"%char)
                  (seq (fun mi k y m d h => k y m d h mi) re_M
                    (skip (lit ":"%char)
                      (seq (fun s (_ : unit) y m d h mi =>
                              mk_datetime y m d h mi s)
                           re_S (fun s => [(tt, s)]))))))))))).

End Regex.

(** [datetime.strptime(data_string, DATE_FORMAT)]: the first match of the
    regex must consume the whole string, and the fields must pass the
    [datetime] constructor; every failure is a [ValueError]. *)
Definition strptime (data_string : list ascii) : exc datetime :=
  match Regex.date_format data_string with
  | (d, []) :: _ => if PyDatetime.valid d then Ret d else Raise ValueError
  | _ => Raise ValueError
  end.

(* ===================================================================== *)
(** ** [parse_log_line] *)
(* ===================================================================== *)

(** The tuple [(login, action, timestamp, session_id)]. *)
Record event : Type := mk_event {
  login : string;
  action : string;
  timestamp : datetime;
  session_id : string
}.

Definition str (s : list ascii) : string := string_of_list_ascii s.

(** [[part.strip().strip(QUOTE) for part in line.strip().split(';')]] *)
Definition parts_of (line : string) : list (list ascii) :=
  List.map
    (fun part => PyStr.strip_by PyStr.is_quote (PyStr.strip_by PyStr.is_space part))
    (PyStr.split ";" (PyStr.strip_by PyStr.is_space (list_ascii_of_string line))).

(** The body of the [try] block.  Unpacking [parts[:4]] into four names
    raises [ValueError] on a shorter list. *)
Definition parse_log_line_try (line : string) : exc (option event) :=
  let parts := parts_of line in
  if (length parts <? 4)%nat then Ret None
  else
    match parts with
    | login :: action :: timestamp_str :: session_id :: _ =>
        timestamp ← strptime timestamp_str;
        Ret (Some (mk_event (str login) (str action) timestamp (str session_id)))
    | _ => Raise ValueError
    end.

(** What the [except] clause of the command-line tool prints to
    [sys.stderr]: the offending line and the exception. *)
Record warning : Type := mk_warning { w_line : string; w_exn : exn }.

(** [parse_log_line] of [calculate_work_time.py]: the returned value and
    the lines written to [sys.stderr]. *)
Definition parse_log_line (line : string) : option event * list warning :=
  match parse_log_line_try line with
  | Ret r => (r, [])
  | Raise e => (None, [mk_warning line e])
  end.

Module Gui.

(** [parse_log_line] of [calculate_work_time_gui.py]: the [except] clause
    only returns [None]. *)
Definition parse_log_line (line : string) : option event * list warning :=
  match parse_log_line_try line with
  | Ret r => (r, [])
  | Raise _ => (None, [])
  end.

End Gui.

(* ===================================================================== *)
(** ** The tables of [calculate_work_time] *)
(* ===================================================================== *)

(** A Python [dict] with string keys, in insertion order. *)
Module Dict.
Section dict.
Context {V : Type}.

(** [d.get(k)]; [k in d] is [is_Some (get k d)]. *)
Fixpoint get (k : string) (d : list (string * V)) : option V :=
  match d with
  | [] => None
  | (k', v') :: d' => if decide (k = k') then Some v' else get k d'
  end.

(** [d[k] = v]: an existing key keeps its position, a new one goes last. *)
Fixpoint set (k : string) (v : V) (d : list (string * V))
  : list (string * V) :=
  match d with
  | [] => [(k, v)]
  | (k', v') :: d' =>
      if decide (k = k') then (k, v) :: d' else (k', v') :: set k v d'
  end.

(** [del d[k]], which the source only runs on a key that is present; a
    dictionary holds a key once, and this removes it. *)
Fixpoint del (k : string) (d : list (string * V)) : list (string * V) :=
  match d with
  | [] => []
  | (k', v') :: d' =>
      if decide (k = k') then del k d' else (k', v') :: del k d'
  end.

Definition keys (d : list (string * V)) : list string := List.map fst d.
End dict.
End Dict.

(** The three messages appended to [missing_start_logs], with the values
    interpolated into each. *)
Inductive diagnostic : Type :=
| StopForeignSession (login : string) (timestamp : datetime) (session_id : string)
| StopWithoutStart (login : string) (timestamp : datetime) (session_id : string)
| StartWithoutStop (login : string) (start_time : datetime) (session_id : string).

Global Instance diagnostic_eq_dec : EqDecision diagnostic.
Proof. solve_decision. Defined.

Record state : Type := mk_state {
  start_times : list (string * (string * datetime));
  total_time : gmap string Z;
  missing_start_logs : list diagnostic;
  stderr : list warning
}.

Definition initial : state := mk_state [] ∅ [] [].

(** [total_time[login]] of the [defaultdict]: 0 for a missing key. *)
Definition total_of (totals : gmap string Z) (login : string) : Z :=
  default 0 (totals !! login).

(** [total_time[login] += duration] *)
Definition add_total (login : string) (duration : Z) (totals : gmap string Z)
  : gmap string Z :=
  <[login := total_of totals login + duration]> totals.

(** Truth value of [target_login]: [None] and the empty string are false. *)
Definition truthy (target_login : option string) : bool :=
  match target_login with
  | Some t => negb (bool_decide (t = ""%string))
  | None => false
  end.

(** [target_login and login != target_login] *)
Definition filtered_out (target_login : option string) (login : string) : bool :=
  truthy target_login && negb (bool_decide (Some login = target_login)).

(** The [if action == "Start" ... elif action == "Stop" ...] statement. *)
Definition transition (st : state) (ev : event) : state :=
  if decide (action ev = "Start"%string) then
    mk_state (Dict.set (session_id ev) (login ev, timestamp ev) (start_times st))
             (total_time st) (missing_start_logs st) (stderr st)
  else if decide (action ev = "Stop"%string) then
    match Dict.get (session_id ev) (start_times st) with
    | Some (start_login, start_time) =>
        if decide (start_login = login ev) then
          let duration := total_seconds (timestamp ev) start_time in
          mk_state (Dict.del (session_id ev) (start_times st))
                   (add_total (login ev) duration (total_time st))
                   (missing_start_logs st) (stderr st)
        else
          mk_state (start_times st) (total_time st)
                   (missing_start_logs st
                    ++ [StopForeignSession (login ev) (timestamp ev) (session_id ev)])
                   (stderr st)
    | None =>
        mk_state (start_times st) (total_time st)
                 (missing_start_logs st
                  ++ [StopWithoutStart (login ev) (timestamp ev) (session_id ev)])
                 (stderr st)
    end
  else st.

(** The loop body from the unpacking of [parsed] on: the login filter,
    then the state machine. *)
Definition process_event (target_login : option string) (st : state) (ev : event)
  : state :=
  if filtered_out target_login (login ev) then st else transition st ev.

Definition process_events (target_login : option string) (st : state)
  (evs : list event) : state :=
  fold_left (process_event target_login) evs st.

(** [';'.join(row)] *)
Definition join_row (row : list string) : string :=
  str (PyStr.join ";" (List.map list_ascii_of_string row)).

Section rows.
(** The [parse_log_line] of the file at hand. *)
Variable parse : string → option event * list warning.

(** One iteration of [for row in reader]. *)
Definition process_row (target_login : option string) (st : state)
  (row : list string) : state :=
  if (length row <? 4)%nat then st
  else
    let '(parsed, err) := parse (join_row row) in
    let st' := mk_state (start_times st) (total_time st)
                        (missing_start_logs st) (stderr st ++ err) in
    match parsed with
    | None => st'
    | Some ev => process_event target_login st' ev
    end.

Definition process_rows (target_login : option string) (st : state)
  (rows : list (list string)) : state :=
  fold_left (process_row target_login) rows st.
End rows.

(** The loop over [start_times.items()] after the file is read. *)
Definition unterminated (target_login : option string)
  (table : list (string * (string * datetime))) : list diagnostic :=
  flat_map
    (fun '(session_id, (login, start_time)) =>
       if negb (truthy target_login) || bool_decide (Some login = target_login)
       then [StartWithoutStop login start_time session_id] else [])
    table.

(** The returned pair [(dict(total_time), missing_start_logs)]. *)
Definition result_of (target_login : option string) (st : state)
  : gmap string Z * list diagnostic :=
  (total_time st,
   missing_start_logs st ++ unterminated target_login (start_times st)).

(** [calculate_work_time] applied to the rows that [csv.reader] yields for
    the file, in the command-line tool and in the GUI. *)
Definition calculate_work_time (rows : list (list string))
  (target_login : option string) : gmap string Z * list diagnostic :=
  result_of target_login (process_rows parse_log_line target_login initial rows).

Definition gui_calculate_work_time (rows : list (list string))
  (target_login : option string) : gmap string Z * list diagnostic :=
  result_of target_login (process_rows Gui.parse_log_line target_login initial rows).

(** The aggregation of an already parsed event sequence. *)
Definition aggregate (target_login : option string) (evs : list event)
  : gmap string Z * list diagnostic :=
  result_of target_login (process_events target_login initial evs).

(** The events that the loop hands to the login filter: rows of four or
    more fields whose re-joined line parses. *)
Definition event_of_row (parse : string → option event * list warning)
  (row : list string) : option event :=
  if (length row <? 4)%nat then None else (parse (join_row row)).1.

Definition events_of (parse : string → option event * list warning)
  (rows : list (list string)) : list event :=
  omap (event_of_row parse) rows.

(** What the rows make the parser write to [sys.stderr]. *)
Definition warnings_of (parse : string → option event * list warning)
  (rows : list (list string)) : list warning :=
  flat_map (fun row => if (length row <? 4)%nat then []
                       else (parse (join_row row)).2) rows.

Definition with_stderr (st : state) (err : list warning) : state :=
  mk_state (start_times st) (total_time st) (missing_start_logs st) err.


(* ===================================================================== *)
(** ** Vocabulary of the properties *)
(* ===================================================================== *)




(** The duration that [transition] is about to add for [ev]: defined when
    [ev] is a [Stop] whose session is open under the same login. *)
Definition matched_duration (st : state) (ev : event) : option Z :=
  if decide (action ev = "Stop"%string) then
    match Dict.get (session_id ev) (start_times st) with
    | Some (start_login, start_time) =>
        if decide (start_login = login ev)
        then Some (total_seconds (timestamp ev) start_time) else None
    | None => None
    end
  else None.

(** No event of the run is matched with a [Start] that is later than it. *)
Fixpoint no_negative_match (target_login : option string) (st : state)
  (evs : list event) : bool :=
  match evs with
  | [] => true
  | ev :: evs' =>
      (filtered_out target_login (login ev)
       || match matched_duration st ev with
          | Some d => 0 <=? d
          | None => true
          end)
      && no_negative_match target_login (process_event target_login st ev) evs'
  end.

(** The events are in chronological order. *)
Fixpoint chronological (evs : list event) : bool :=
  match evs with
  | e1 :: evs' =>
      match evs' with
      | e2 :: _ =>
          (PyDatetime.seconds_of (timestamp e1)
           <=? PyDatetime.seconds_of (timestamp e2))
          && chronological evs'
      | [] => true
      end
  | [] => true
  end.

(** Two states that agree except on the entry of [sid] in [start_times]. *)
Definition agree_but (sid : string) (st1 st2 : state) : Prop :=
  Dict.del sid (start_times st1) = Dict.del sid (start_times st2)
  ∧ total_time st1 = total_time st2
  ∧ missing_start_logs st1 = missing_start_logs st2
  ∧ stderr st1 = stderr st2.

(** No diagnostic of the list is a "Start without Stop". *)
Definition stop_diagnostic (d : diagnostic) : bool :=
  match d with
  | StartWithoutStop _ _ _ => false
  | _ => true
  end.

(** The session id that a diagnostic names. *)
Definition diagnostic_session (d : diagnostic) : string :=
  match d with
  | StopForeignSession _ _ sid | StopWithoutStart _ _ sid
  | StartWithoutStop _ _ sid => sid
  end.

(** What holds of the tables during a pass with filter [target_login]: a
    session id is open at most once, the pass itself only reports [Stop]
    events, and no open session belongs to a login that the filter skips. *)
Definition pass_invariant (target_login : option string) (st : state) : Prop :=
  NoDup (Dict.keys (start_times st))
  ∧ Forall (fun d => stop_diagnostic d = true) (missing_start_logs st)
  ∧ Forall (fun entry : string * (string * datetime) =>
              filtered_out target_login entry.2.1 = false) (start_times st).

(** The "Start without Stop" diagnostic of one entry of [start_times]. *)
Definition unterminated_entry (entry : string * (string * datetime))
  : diagnostic :=
  StartWithoutStop entry.2.1 entry.2.2 entry.1.

(** Sample log records and events. *)
Module Sample.

Definition at_hour (h : Z) : datetime := mk_datetime 2024 1 1 h 0 0.

Definition alice_start_9 : event := mk_event "alice" "Start" (at_hour 9) "s1".
Definition alice_start_10 : event := mk_event "alice" "Start" (at_hour 10) "s1".
Definition alice_stop_9 : event := mk_event "alice" "Stop" (at_hour 9) "s1".
Definition alice_stop_17 : event := mk_event "alice" "Stop" (at_hour 17) "s1".
Definition bob_start_9 : event := mk_event "bob" "Start" (at_hour 9) "s2".
Definition bob_stop_10 : event := mk_event "bob" "Stop" (at_hour 10) "s1".

(** A working day of alice, one matched pair. *)
Definition working_day : list (list string) :=
  [["alice"; "Start"; "2024-01-01 09:00:00"; "s1"];
   ["alice"; "Stop"; "2024-01-01 17:00:00"; "s1"]]%string.

Definition orphan_stop : list (list string) :=
  [["bob"; "Stop"; "2024-01-01 10:00:00"; "s2"]]%string.

Definition open_start : list (list string) :=
  [["alice"; "Start"; "2024-01-01 09:00:00"; "s3"]]%string.

(** The state after alice opened session s1 at 9 and at 10 o'clock. *)
Definition opened_at_9 : state :=
  process_events None initial [alice_start_9].

End Sample.

From stdpp Require Import sorting.
Local Open Scope Z_scope.

(* ===================================================================== *)
(** ** [format_duration] *)
(* ===================================================================== *)

Module PyFormat.

(** The character of a decimal digit. *)
Definition digit_char (d : Z) : ascii := ascii_of_N (Z.to_N (48 + d)).

(** Decimal digits of a non-negative integer, most significant first; a
    number has no more decimal digits than binary ones. *)
Fixpoint digits_fuel (fuel : nat) (n : Z) : list ascii :=
  match fuel with
  | O => []
  | S fuel' =>
      if n <? 10 then [digit_char n]
      else digits_fuel fuel' (n / 10) ++ [digit_char (n mod 10)]
  end.

Definition digits (n : Z) : list ascii :=
  digits_fuel (S (Z.to_nat (Z.log2 n))) n.

(** [format(n, '02d')]: sign-aware zero padding to width 2. *)
Definition format_02d (n : Z) : list ascii :=
  if n <? 0 then "-"%char :: digits (- n)
  else if n <? 10 then "0"%char :: digits n
  else digits n.

(** The number that a run of decimal digits writes. *)
Definition digits_value (ds : list ascii) : Z :=
  fold_left (fun acc c => 10 * acc + Regex.digit_val c) ds 0.

(** Reading back an optionally signed decimal number. *)
Definition signed_value (s : list ascii) : Z :=
  match s with
  | c :: ds => if Ascii.eqb c "-"%char then - digits_value ds
               else digits_value s
  | [] => 0
  end.

End PyFormat.

(** [format_duration(seconds)] for a whole number of seconds, on which
    [int(seconds)] is the identity; [divmod] rounds towards minus
    infinity, like [Z.div] and [Z.modulo]. *)
Definition format_duration (seconds : Z) : string :=
  let hours := seconds / 3600 in
  let remainder := seconds mod 3600 in
  let minutes := remainder / 60 in
  let seconds := remainder mod 60 in
  str (PyFormat.format_02d hours
       ++ ":"%char :: PyFormat.format_02d minutes
       ++ ":"%char :: PyFormat.format_02d seconds).

(* ===================================================================== *)
(** ** Vocabulary for the fields of a row *)
(* ===================================================================== *)

(** [part.strip().strip(QUOTE)], what [parse_log_line] does to each part. *)
Definition trim (part : list ascii) : list ascii :=
  PyStr.strip_by PyStr.is_quote (PyStr.strip_by PyStr.is_space part).

(** Number of semicolons in a text. *)
Definition semicolons (s : list ascii) : nat :=
  count_occ ascii_dec s ";"%char.

(** Number of semicolons inside the fields of a row. *)
Definition inner_semicolons (row : list string) : nat :=
  foldr (fun field n => (semicolons (list_ascii_of_string field) + n)%nat) 0%nat row.

(* ===================================================================== *)
(** ** Vocabulary for whole logs *)
(* ===================================================================== *)



(** The events of a log with a given action. *)
Definition with_action (a : string) (evs : list event) : list event :=
  filter (fun e => action e = a) evs.

(** The login that a diagnostic names. *)
Definition diagnostic_login (d : diagnostic) : string :=
  match d with
  | StopForeignSession l _ _ | StopWithoutStart l _ _
  | StartWithoutStop l _ _ => l
  end.

(** Every open session and every total of [st] stems from events of
    [evs]: a [Start] for an open session, a [Start] and a [Stop] of one
    login on one session id for a total. *)
Definition stems_from (evs : list event) (st : state) : Prop :=
  (∀ sid l t0, Dict.get sid (start_times st) = Some (l, t0) →
     mk_event l "Start" t0 sid ∈ evs)
  ∧ (∀ l, is_Some (total_time st !! l) →
       ∃ e0 e1, e0 ∈ evs ∧ e1 ∈ evs
                ∧ action e0 = "Start"%string ∧ action e1 = "Stop"%string
                ∧ login e0 = l ∧ login e1 = l
                ∧ session_id e0 = session_id e1).

(* ===================================================================== *)
(** ** [str(datetime)] *)
(* ===================================================================== *)

(** ["%04d" % n] for a non-negative [n]. *)
Definition format_04d (n : Z) : list ascii :=
  let ds := PyFormat.digits n in
  repeat "0"%char (4 - length ds) ++ ds.

(** [str(d)], that is [d.isoformat(sep=' ')], of a [datetime] without
    microseconds: ["%04d-%02d-%02d %02d:%02d:%02d"]. *)
Definition datetime_str (d : datetime) : list ascii :=
  format_04d (dt_year d)
  ++ "-"%char :: PyFormat.format_02d (dt_month d)
  ++ "-"%char :: PyFormat.format_02d (dt_day d)
  ++ " "%char :: PyFormat.format_02d (dt_hour d)
  ++ ":"%char :: PyFormat.format_02d (dt_minute d)
  ++ ":"%char :: PyFormat.format_02d (dt_second d).

(** The log line of an event: its four fields joined by semicolons, the
    timestamp written by [str]. *)
Definition line_of_event (ev : event) : string :=
  join_row [login ev; action ev; str (datetime_str (timestamp ev));
            session_id ev].

(** A field that [parse_log_line] leaves as it is: no semicolon inside,
    no white space or quote at either end. *)
Definition plain_field (f : string) : Prop :=
  trim (list_ascii_of_string f) = list_ascii_of_string f
  ∧ semicolons (list_ascii_of_string f) = 0%nat.

(** No session id of the log is used by two logins. *)
Definition unshared_sessions (evs : list event) : Prop :=
  ∀ e1 e2, e1 ∈ evs → e2 ∈ evs →
           session_id e1 = session_id e2 → login e1 = login e2.

(** Every open session belongs to the login that uses its id in [evs]. *)
Definition owners_agree (evs : list event)
  (table : list (string * (string * datetime))) : Prop :=
  Forall (fun entry : string * (string * datetime) =>
            ∀ e, e ∈ evs → session_id e = entry.1 → login e = entry.2.1)
         table.

(** [st2] is what is left of [st1] when only login [t] is looked at. *)
Definition projects (t : string) (st1 st2 : state) : Prop :=
  start_times st2
  = filter (fun entry : string * (string * datetime) => entry.2.1 = t)
           (start_times st1)
  ∧ total_time st2 !! t = total_time st1 !! t
  ∧ (∀ l, l ≠ t → total_time st2 !! l = None)
  ∧ missing_start_logs st2
    = filter (fun d => diagnostic_login d = t) (missing_start_logs st1).


(* ===================================================================== *)
(** ** Texts shown to the user *)
(* ===================================================================== *)

(** A text with characters beyond code point 255, as the messages of the
    two programs have: the list of its code points. *)
Module Text.

Definition of_chars (s : list ascii) : list Z :=
  List.map (fun c => Z.of_N (N_of_ascii c)) s.

Definition latin (s : string) : list Z := of_chars (list_ascii_of_string s).

Fixpoint starts_with (needle hay : list Z) : bool :=
  match needle, hay with
  | [], _ => true
  | _ :: _, [] => false
  | x :: needle', y :: hay' => (x =? y) && starts_with needle' hay'
  end.

(** [needle in hay] on strings. *)
Fixpoint occurs_in (needle hay : list Z) : bool :=
  starts_with needle hay
  || match hay with
     | [] => false
     | _ :: hay' => occurs_in needle hay'
     end.

End Text.

(** The fixed parts of the messages, by their place in
    [calculate_work_time.py] unless the GUI file is named. *)
Module Msg.

(** line 60: the text «Stop для » *)
Definition stop_for : list Z :=
  [83; 116; 111; 112; 32; 1076; 1083; 1103; 32].

(** lines 60, 62, 67: the text « в » *)
Definition at_time : list Z :=
  [32; 1074; 32].

(** line 60: the text «: session_id » *)
Definition session_id_is : list Z :=
  [58; 32; 115; 101; 115; 115; 105; 111; 110; 95; 105; 100; 32].

(** line 60: the text « принадлежит другому пользователю» *)
Definition belongs_to_other : list Z :=
  [32; 1087; 1088; 1080; 1085; 1072; 1076; 1083; 1077; 1078; 1080; 1090;
   32; 1076; 1088; 1091; 1075; 1086; 1084; 1091; 32; 1087; 1086; 1083;
   1100; 1079; 1086; 1074; 1072; 1090; 1077; 1083; 1102].

(** line 62: the text «Stop без Start для » *)
Definition stop_without_start_for : list Z :=
  [83; 116; 111; 112; 32; 1073; 1077; 1079; 32; 83; 116; 97; 114; 116; 32;
   1076; 1083; 1103; 32].

(** lines 62, 67: the text «, session_id: » *)
Definition session_id_colon : list Z :=
  [44; 32; 115; 101; 115; 115; 105; 111; 110; 95; 105; 100; 58; 32].

(** line 67: the text «Start без Stop для » *)
Definition start_without_stop_for : list Z :=
  [83; 116; 97; 114; 116; 32; 1073; 1077; 1079; 32; 83; 116; 111; 112; 32;
   1076; 1083; 1103; 32].

(** line 95, GUI line 225: the text «Общее время работы для » *)
Definition total_for : list Z :=
  [1054; 1073; 1097; 1077; 1077; 32; 1074; 1088; 1077; 1084; 1103; 32;
   1088; 1072; 1073; 1086; 1090; 1099; 32; 1076; 1083; 1103; 32].

(** line 97: the text «\nПредупреждения:» *)
Definition warnings_header : list Z :=
  [10; 1055; 1088; 1077; 1076; 1091; 1087; 1088; 1077; 1078; 1076; 1077;
   1085; 1080; 1103; 58].

(** line 104: the text «Общее время работы пользователей:» *)
Definition all_totals_header : list Z :=
  [1054; 1073; 1097; 1077; 1077; 32; 1074; 1088; 1077; 1084; 1103; 32;
   1088; 1072; 1073; 1086; 1090; 1099; 32; 1087; 1086; 1083; 1100; 1079;
   1086; 1074; 1072; 1090; 1077; 1083; 1077; 1081; 58].

(** line 108, GUI line 233: the text «Не найдено ни одного корректного интервала Start-Stop.» *)
Definition none_found : list Z :=
  [1053; 1077; 32; 1085; 1072; 1081; 1076; 1077; 1085; 1086; 32; 1085;
   1080; 32; 1086; 1076; 1085; 1086; 1075; 1086; 32; 1082; 1086; 1088;
   1088; 1077; 1082; 1090; 1085; 1086; 1075; 1086; 32; 1080; 1085; 1090;
   1077; 1088; 1074; 1072; 1083; 1072; 32; 83; 116; 97; 114; 116; 45; 83;
   116; 111; 112; 46].

(** line 111: the text «\nПредупреждения (Start без Stop или Stop без Start):» *)
Definition all_warnings_header : list Z :=
  [10; 1055; 1088; 1077; 1076; 1091; 1087; 1088; 1077; 1078; 1076; 1077;
   1085; 1080; 1103; 32; 40; 83; 116; 97; 114; 116; 32; 1073; 1077; 1079;
   32; 83; 116; 111; 112; 32; 1080; 1083; 1080; 32; 83; 116; 111; 112; 32;
   1073; 1077; 1079; 32; 83; 116; 97; 114; 116; 41; 58].

(** line 86: the text «Файл не найден: » *)
Definition file_not_found : list Z :=
  [1060; 1072; 1081; 1083; 32; 1085; 1077; 32; 1085; 1072; 1081; 1076;
   1077; 1085; 58; 32].

(** GUI line 229: the text «Общее время работы пользователей:\n» *)
Definition gui_all_totals_header : list Z :=
  [1054; 1073; 1097; 1077; 1077; 32; 1074; 1088; 1077; 1084; 1103; 32;
   1088; 1072; 1073; 1086; 1090; 1099; 32; 1087; 1086; 1083; 1100; 1079;
   1086; 1074; 1072; 1090; 1077; 1083; 1077; 1081; 58; 10].

(** GUI line 242: the text «Ошибок и предупреждений не обнаружено.» *)
Definition no_warnings : list Z :=
  [1054; 1096; 1080; 1073; 1086; 1082; 32; 1080; 32; 1087; 1088; 1077;
   1076; 1091; 1087; 1088; 1077; 1078; 1076; 1077; 1085; 1080; 1081; 32;
   1085; 1077; 32; 1086; 1073; 1085; 1072; 1088; 1091; 1078; 1077; 1085;
   1086; 46].

(** GUI line 212: the text «Расчет отменен» *)
Definition status_cancelled : list Z :=
  [1056; 1072; 1089; 1095; 1077; 1090; 32; 1086; 1090; 1084; 1077; 1085;
   1077; 1085].

(** GUI line 216: the text «Ошибка при расчете» *)
Definition status_failed : list Z :=
  [1054; 1096; 1080; 1073; 1082; 1072; 32; 1087; 1088; 1080; 32; 1088;
   1072; 1089; 1095; 1077; 1090; 1077].

(** GUI line 245: the text «Расчет завершен» *)
Definition status_done : list Z :=
  [1056; 1072; 1089; 1095; 1077; 1090; 32; 1079; 1072; 1074; 1077; 1088;
   1096; 1077; 1085].

End Msg.

(** The f-strings appended to [missing_start_logs]. *)
Definition render (d : diagnostic) : list Z :=
  match d with
  | StopForeignSession login timestamp session_id =>
      Msg.stop_for ++ Text.latin login ++ Msg.at_time
      ++ Text.of_chars (datetime_str timestamp) ++ Msg.session_id_is
      ++ Text.latin session_id ++ Msg.belongs_to_other
  | StopWithoutStart login timestamp session_id =>
      Msg.stop_without_start_for ++ Text.latin login ++ Msg.at_time
      ++ Text.of_chars (datetime_str timestamp) ++ Msg.session_id_colon
      ++ Text.latin session_id
  | StartWithoutStop login start_time session_id =>
      Msg.start_without_stop_for ++ Text.latin login ++ Msg.at_time
      ++ Text.of_chars (datetime_str start_time) ++ Msg.session_id_colon
      ++ Text.latin session_id
  end.

(** [sorted(total_time.keys())]: strings are compared code point by code
    point. *)
Definition sorted_keys (total_time : gmap string Z) : list string :=
  merge_sort String.le (map_to_list total_time).*1.

(* ===================================================================== *)
(** ** [main] of the command-line tool *)
(* ===================================================================== *)

Module Cli.

(** What reaches [sys.stderr]: the warnings of [parse_log_line] and the
    messages of [main]. *)
Inductive stderr_line : Type :=
| ParseWarning (w : warning)
| Message (text : list Z).

Record output : Type := mk_output {
  stdout : list (list Z);
  stderr_lines : list stderr_line;
  exit_code : Z
}.

(** The diagnostics that [main] prints: with [--login], those whose text
    holds the login somewhere. *)
Definition shown_errors (login : option string) (errors : list diagnostic)
  : list diagnostic :=
  match login with
  | Some l =>
      if decide (l = ""%string) then errors
      else filter (fun err => Text.occurs_in (Text.latin l) (render err) = true)
                  errors
  | None => errors
  end.

(** The [print] calls of [main] after a successful
    [calculate_work_time], one text per call. *)
Definition report (login : option string) (total_time : gmap string Z)
  (errors : list diagnostic) : list (list Z) :=
  let items := List.map (fun err => Text.latin "  - " ++ render err)
                        (shown_errors login errors) in
  if truthy login then
    let l := default ""%string login in
    [Msg.total_for ++ Text.latin l ++ Text.latin ": "
     ++ Text.latin (format_duration (total_of total_time l))]
    ++ match errors with
       | [] => []
       | _ :: _ => Msg.warnings_header :: items
       end
  else
    (if decide (total_time = ∅) then [Msg.none_found]
     else Msg.all_totals_header
          :: List.map (fun l => Text.latin "  " ++ Text.latin l
                                ++ Text.latin ": "
                                ++ Text.latin
                                     (format_duration (total_of total_time l)))
                      (sorted_keys total_time))
    ++ match errors with
       | [] => []
       | _ :: _ => Msg.all_warnings_header :: items
       end.

(** [main] for parsed arguments; [rows] is [None] when the log file does
    not exist.  Other failures of reading the file are left out. *)
Definition main (log_file : string) (rows : option (list (list string)))
  (login : option string) : output :=
  match rows with
  | None =>
      mk_output [] [Message (Msg.file_not_found ++ Text.latin log_file)] 1
  | Some rows =>
      let st := process_rows parse_log_line login initial rows in
      let '(total_time, errors) := result_of login st in
      mk_output (report login total_time errors)
                (List.map ParseWarning (stderr st)) 0
  end.

End Cli.

(* ===================================================================== *)
(** ** The result panes of the GUI *)
(* ===================================================================== *)

Module GuiView.

(** The texts inserted into the two panes since [start_calculation]
    emptied them, and the status bar. *)
Record view : Type := mk_view {
  results_text : list (list Z);
  errors_text : list (list Z);
  status : list Z
}.

(** [_update_ui_after_calculation], without the state of the buttons. *)
Definition update_ui_after_calculation (login_var : string)
  (total_time : option (gmap string Z)) (errors : list diagnostic)
  (cancelled : bool) : view :=
  if cancelled then mk_view [] [] Msg.status_cancelled
  else
    match total_time with
    | None => mk_view [] [] Msg.status_failed
    | Some total_time =>
        mk_view
          (if decide (total_time = ∅) then [Msg.none_found]
           else if decide (login_var = ""%string) then
             Msg.gui_all_totals_header
             :: List.map (fun l => Text.latin l ++ Text.latin ": "
                                   ++ Text.latin
                                        (format_duration (total_of total_time l))
                                   ++ [10])
                         (sorted_keys total_time)
           else
             [Msg.total_for ++ Text.latin login_var ++ Text.latin ":" ++ [10];
              Text.latin (format_duration (total_of total_time login_var))
              ++ [10]])
          (match errors with
           | [] => [Msg.no_warnings]
           | _ :: _ =>
               List.map (fun err => Text.latin "- " ++ render err ++ [10]) errors
           end)
          Msg.status_done
    end.

(** [run_calculation] on the rows of the chosen file, with the content of
    the login field and the value of [stop_calculation] when the
    calculation returns; the status written before a cancelled update is
    overwritten by it.  The [except] branch is left out: reading the rows
    cannot fail here. *)
Definition run_calculation (rows : list (list string)) (login_var : string)
  (stop_calculation : bool) : view :=
  let login := if decide (login_var = ""%string) then None else Some login_var in
  let '(total_time, errors) := gui_calculate_work_time rows login in
  if stop_calculation then update_ui_after_calculation login_var None [] true
  else update_ui_after_calculation login_var (Some total_time) errors false.

End GuiView.

(* ===================================================================== *)
(** ** The line parser *)
(* ===================================================================== *)

Section parser_facts.


(** The [try] body either returns [None] on a short record, raises on a
    bad timestamp, or returns the four fields. *)
Lemma parse_log_line_try_cases line :
  ((length (parts_of line) < 4)%nat ∧ parse_log_line_try line = Ret None)
  ∨ (∃ l a ts s rest,
       parts_of line = l :: a :: ts :: s :: rest
       ∧ parse_log_line_try line
         = d ← strptime ts; Ret (Some (mk_event (str l) (str a) d (str s)))).
Proof.
  unfold parse_log_line_try.
  destruct (parts_of line) as [|l [|a [|ts [|s rest]]]] eqn:Hp; simpl;
    try (left; split; [lia|done]).
  right. by exists l, a, ts, s, rest.
Qed.



End parser_facts.



(* ===================================================================== *)
(** ** The insertion-ordered dictionary *)
(* ===================================================================== *)

Section dict_facts.
Context {V : Type}.
Implicit Types (k : string) (v : V) (d : list (string * V)).

Lemma get_set_eq k v d : Dict.get k (Dict.set k v d) = Some v.
Proof.
  induction d as [|[k' v'] d IH]; simpl.
  - by rewrite decide_True.
  - destruct (decide (k = k')) as [->|Hne]; simpl.
    + by rewrite decide_True.
    + by rewrite decide_False.
Qed.

Lemma get_set_ne k k' v d :
  k ≠ k' → Dict.get k' (Dict.set k v d) = Dict.get k' d.
Proof.
  intros Hne. induction d as [|[k0 v0] d IH]; simpl.
  - by rewrite decide_False.
  - destruct (decide (k = k0)) as [->|Hne0]; simpl.
    + by rewrite !decide_False.
    + by rewrite IH.
Qed.

Lemma get_del_eq k d : Dict.get k (Dict.del k d) = None.
Proof.
  induction d as [|[k' v'] d IH]; simpl; [done|].
  destruct (decide (k = k')) as [->|Hne]; simpl; [done|].
  by rewrite decide_False.
Qed.

Lemma get_del_ne k k' d :
  k ≠ k' → Dict.get k' (Dict.del k d) = Dict.get k' d.
Proof.
  intros Hne. induction d as [|[k0 v0] d IH]; simpl; [done|].
  destruct (decide (k = k0)) as [->|Hne0]; simpl.
  - by rewrite decide_False.
  - by rewrite IH.
Qed.

Lemma del_absent k d : Dict.get k d = None → Dict.del k d = d.
Proof.
  induction d as [|[k' v'] d IH]; simpl; [done|].
  destruct (decide (k = k')); [done|]. intros H. by rewrite IH.
Qed.

Lemma del_set_eq k v d : Dict.del k (Dict.set k v d) = Dict.del k d.
Proof.
  induction d as [|[k' v'] d IH]; simpl.
  - by rewrite decide_True.
  - destruct (decide (k = k')) as [->|Hne]; simpl.
    + by rewrite decide_True.
    + by rewrite decide_False, IH.
Qed.

Lemma del_set_ne k k' v d :
  k ≠ k' → Dict.del k (Dict.set k' v d) = Dict.set k' v (Dict.del k d).
Proof.
  intros Hne. induction d as [|[k0 v0] d IH]; simpl.
  - by rewrite decide_False.
  - repeat (case_decide; simplify_eq/=); try done.
    all: rewrite ?decide_True, ?decide_False by done; rewrite ?IH.
    all: try done.
Qed.

Lemma del_del k k' d :
  Dict.del k (Dict.del k' d) = Dict.del k' (Dict.del k d).
Proof.
  induction d as [|[k0 v0] d IH]; simpl; [done|].
  destruct (decide (k' = k0)), (decide (k = k0)); simpl;
    rewrite ?decide_True, ?decide_False by done; by rewrite ?IH.
Qed.

Lemma Forall_set (P : string * V → Prop) k v d :
  P (k, v) → Forall P d → Forall P (Dict.set k v d).
Proof.
  intros Hkv. induction 1 as [|[k' v'] d HP Hd IH]; simpl.
  - by constructor.
  - destruct (decide (k = k')); constructor; auto.
Qed.

Lemma Forall_del (P : string * V → Prop) k d :
  Forall P d → Forall P (Dict.del k d).
Proof.
  induction 1 as [|[k' v'] d HP Hd IH]; simpl; [constructor|].
  destruct (decide (k = k')); [done|]. by constructor.
Qed.

Lemma keys_del k d : Dict.keys (Dict.del k d) = filter (fun k' => k' ≠ k) (Dict.keys d).
Proof.
  induction d as [|[k' v'] d IH]; simpl; [done|].
  rewrite filter_cons. simpl.
  destruct (decide (k = k')) as [->|Hne].
  - by rewrite decide_False by auto.
  - rewrite decide_True by auto. simpl. by rewrite IH.
Qed.

Lemma elem_of_keys_get k d : k ∈ Dict.keys d ↔ is_Some (Dict.get k d).
Proof.
  induction d as [|[k' v'] d IH]; simpl.
  - split; [by intros ?%elem_of_nil | by intros [? ?]].
  - rewrite elem_of_cons. destruct (decide (k = k')) as [->|Hne].
    + split; eauto.
    + rewrite IH. split; [|by right]. by intros [?|?].
Qed.

(** A dictionary holds each key once. *)
Lemma NoDup_keys_set k v d :
  NoDup (Dict.keys d) → NoDup (Dict.keys (Dict.set k v d)).
Proof.
  induction d as [|[k' v'] d IH]; simpl; intros Hnd.
  - apply NoDup_singleton.
  - apply NoDup_cons in Hnd as [Hk' Hnd].
    destruct (decide (k = k')) as [->|Hne]; simpl.
    + by apply NoDup_cons.
    + apply NoDup_cons. split; [|auto].
      rewrite elem_of_keys_get, get_set_ne by done.
      by rewrite <- elem_of_keys_get.
Qed.

Lemma NoDup_keys_del k d :
  NoDup (Dict.keys d) → NoDup (Dict.keys (Dict.del k d)).
Proof. rewrite keys_del. apply NoDup_filter. Qed.

Lemma elem_of_get k v d :
  NoDup (Dict.keys d) → (k, v) ∈ d ↔ Dict.get k d = Some v.
Proof.
  induction d as [|[k' v'] d IH]; simpl; intros Hnd.
  - split; [by intros ?%elem_of_nil | done].
  - apply NoDup_cons in Hnd as [Hk' Hnd].
    rewrite elem_of_cons, (IH Hnd).
    destruct (decide (k = k')) as [->|Hne].
    + split; [|by intros [= ->]; left].
      intros [[= ->]|Hg]; [done|].
      exfalso. apply Hk', elem_of_keys_get. by rewrite Hg.
    + split; [|by right]. by intros [[= ? ?]|?].
Qed.

End dict_facts.

(* ===================================================================== *)
(** ** The state machine, one event at a time *)
(* ===================================================================== *)

Section transition_facts.
Implicit Types (st : state) (ev : event) (target : option string).

Lemma transition_start st ev :
  action ev = "Start"%string →
  transition st ev
  = mk_state (Dict.set (session_id ev) (login ev, timestamp ev) (start_times st))
             (total_time st) (missing_start_logs st) (stderr st).
Proof. intros Ha. unfold transition. by rewrite decide_True. Qed.

Lemma transition_stop st ev :
  action ev = "Stop"%string →
  transition st ev
  = match Dict.get (session_id ev) (start_times st) with
    | Some (start_login, start_time) =>
        if decide (start_login = login ev) then
          mk_state (Dict.del (session_id ev) (start_times st))
                   (add_total (login ev)
                      (total_seconds (timestamp ev) start_time) (total_time st))
                   (missing_start_logs st) (stderr st)
        else
          mk_state (start_times st) (total_time st)
                   (missing_start_logs st
                    ++ [StopForeignSession (login ev) (timestamp ev) (session_id ev)])
                   (stderr st)
    | None =>
        mk_state (start_times st) (total_time st)
                 (missing_start_logs st
                  ++ [StopWithoutStart (login ev) (timestamp ev) (session_id ev)])
                 (stderr st)
    end.
Proof.
  intros Ha. unfold transition.
  rewrite decide_False by (rewrite Ha; discriminate).
  by rewrite decide_True.
Qed.

Lemma transition_other st ev :
  action ev ≠ "Start"%string → action ev ≠ "Stop"%string → transition st ev = st.
Proof. intros H1 H2. unfold transition. by rewrite !decide_False. Qed.

Lemma action_cases ev :
  action ev = "Start"%string
  ∨ action ev = "Stop"%string
  ∨ (action ev ≠ "Start"%string ∧ action ev ≠ "Stop"%string).
Proof.
  destruct (decide (action ev = "Start"%string)); [by left|].
  destruct (decide (action ev = "Stop"%string)); [by right; left|].
  by right; right.
Qed.

Lemma process_event_pass target st ev :
  filtered_out target (login ev) = false →
  process_event target st ev = transition st ev.
Proof. intros Hf. unfold process_event. by rewrite Hf. Qed.

Lemma process_event_skip target st ev :
  filtered_out target (login ev) = true → process_event target st ev = st.
Proof. intros Hf. unfold process_event. by rewrite Hf. Qed.

Lemma process_events_app target st evs1 evs2 :
  process_events target st (evs1 ++ evs2)
  = process_events target (process_events target st evs1) evs2.
Proof. apply fold_left_app. Qed.

Lemma process_events_cons target st ev evs :
  process_events target st (ev :: evs)
  = process_events target (process_event target st ev) evs.
Proof. done. Qed.

Lemma total_of_add_total l l' d (m : gmap string Z) :
  total_of (add_total l d m) l'
  = if decide (l = l') then total_of m l' + d else total_of m l'.
Proof.
  unfold add_total, total_of. rewrite lookup_insert.
  by destruct (decide (l = l')) as [->|].
Qed.




(** The state machine neither reads nor writes [stderr]. *)
Lemma transition_with_stderr st ev err :
  transition (with_stderr st err) ev = with_stderr (transition st ev) err.
Proof.
  destruct (action_cases ev) as [Ha|[Ha|[Ha1 Ha2]]].
  - by rewrite !transition_start.
  - rewrite !transition_stop by done. simpl.
    destruct (Dict.get _ _) as [[l0 t0]|]; [|done].
    by destruct (decide (l0 = login ev)).
  - by rewrite !transition_other.
Qed.

Lemma process_event_with_stderr target st ev err :
  process_event target (with_stderr st err) ev
  = with_stderr (process_event target st ev) err.
Proof.
  unfold process_event. destruct (filtered_out _ _); [done|].
  apply transition_with_stderr.
Qed.

(** An event leaves the entries of the other session ids alone. *)
Lemma transition_get_other st ev sid :
  session_id ev ≠ sid →
  Dict.get sid (start_times (transition st ev)) = Dict.get sid (start_times st).
Proof.
  intros Hne. destruct (action_cases ev) as [Ha|[Ha|[Ha1 Ha2]]].
  - rewrite transition_start by done. simpl. by apply get_set_ne.
  - rewrite transition_stop by done.
    destruct (Dict.get (session_id ev) _) as [[l0 t0]|]; [|done].
    destruct (decide (l0 = login ev)); [|done]. simpl. by apply get_del_ne.
  - by rewrite transition_other.
Qed.

Lemma process_events_get_other target st evs sid :
  Forall (fun e => session_id e ≠ sid) evs →
  Dict.get sid (start_times (process_events target st evs))
  = Dict.get sid (start_times st).
Proof.
  intros Hevs. revert st.
  induction Hevs as [|ev evs Hne _ IH]; intros st; [done|].
  rewrite process_events_cons, IH. unfold process_event.
  destruct (filtered_out _ _); [done|]. by apply transition_get_other.
Qed.

(** Events other than a [Stop] on [sid] cannot tell apart two states that
    differ only in the entry of [sid]. *)
Lemma transition_agree_but sid st1 st2 ev :
  ¬ (action ev = "Stop"%string ∧ session_id ev = sid) →
  agree_but sid st1 st2 →
  agree_but sid (transition st1 ev) (transition st2 ev).
Proof.
  intros Hns (Ht & Htot & Hd & He).
  destruct (action_cases ev) as [Ha|[Ha|[Ha1 Ha2]]].
  - rewrite !transition_start by done. split_and!; try done. simpl.
    destruct (decide (sid = session_id ev)) as [->|Hne].
    + by rewrite !del_set_eq.
    + by rewrite !del_set_ne, Ht.
  - assert (Hne : sid ≠ session_id ev) by naive_solver.
    rewrite !transition_stop by done.
    assert (Hg : Dict.get (session_id ev) (start_times st1)
                 = Dict.get (session_id ev) (start_times st2)).
    { rewrite <- (get_del_ne sid (session_id ev) (start_times st1)) by done.
      rewrite Ht. by apply get_del_ne. }
    rewrite Hg. destruct (Dict.get _ (start_times st2)) as [[l0 t0]|].
    + destruct (decide (l0 = login ev)).
      * split_and!; simpl; try done; [|by rewrite Htot].
        by rewrite del_del, Ht, del_del.
      * split_and!; simpl; try done. by rewrite Hd.
    + split_and!; simpl; try done. by rewrite Hd.
  - by rewrite !transition_other.
Qed.

Lemma process_events_agree_but target sid evs st1 st2 :
  Forall (fun e => ¬ (action e = "Stop"%string ∧ session_id e = sid)) evs →
  agree_but sid st1 st2 →
  agree_but sid (process_events target st1 evs) (process_events target st2 evs).
Proof.
  intros Hevs. revert st1 st2.
  induction Hevs as [|ev evs Hns _ IH]; intros st1 st2 Hag; [done|].
  rewrite !process_events_cons. apply IH. unfold process_event.
  destruct (filtered_out _ _); [done|]. by apply transition_agree_but.
Qed.

End transition_facts.

(* ===================================================================== *)
(** ** Properties of single transitions *)
(* ===================================================================== *)

Local Open Scope string_scope.
Local Open Scope list_scope.
Local Open Scope Z_scope.

(** A [Stop] by the login that holds the session. *)
Lemma stop_matches target st ev start_time :
  action ev = "Stop" →
  filtered_out target (login ev) = false →
  Dict.get (session_id ev) (start_times st) = Some (login ev, start_time) →
  process_event target st ev
  = mk_state (Dict.del (session_id ev) (start_times st))
             (add_total (login ev)
                (total_seconds (timestamp ev) start_time) (total_time st))
             (missing_start_logs st) (stderr st).
Proof.
  intros Ha Hf Hg. rewrite process_event_pass, transition_stop by done.
  by rewrite Hg, decide_True.
Qed.


(** C5. A [Stop] on an open session that another login opened appends one
    mismatch diagnostic and changes nothing else: the entry stays as it
    was and every total is unchanged.  The session is still open after any
    further events on other session ids, and a [Stop] by the opening login
    is then matched against the stored [Start]. *)
Theorem foreign_stop_keeps_session_open (target : option string) (st : state)
  (ev : event) (start_login : string) (start_time : datetime) :
  action ev = "Stop" →
  filtered_out target (login ev) = false →
  Dict.get (session_id ev) (start_times st) = Some (start_login, start_time) →
  start_login ≠ login ev →
  process_event target st ev
  = mk_state (start_times st) (total_time st)
      (missing_start_logs st
       ++ [StopForeignSession (login ev) (timestamp ev) (session_id ev)])
      (stderr st)
  ∧ ∀ (mid : list event) (ev2 : event),
      Forall (fun e => session_id e ≠ session_id ev) mid →
      action ev2 = "Stop" → session_id ev2 = session_id ev →
      login ev2 = start_login → filtered_out target start_login = false →
      let st' := process_events target (process_event target st ev) mid in
      Dict.get (session_id ev) (start_times st') = Some (start_login, start_time)
      ∧ process_event target st' ev2
        = mk_state (Dict.del (session_id ev) (start_times st'))
            (add_total start_login (total_seconds (timestamp ev2) start_time)
               (total_time st'))
            (missing_start_logs st') (stderr st').
Proof.
  intros Ha Hf Hg Hne.
  assert (Hstep : process_event target st ev
    = mk_state (start_times st) (total_time st)
        (missing_start_logs st
         ++ [StopForeignSession (login ev) (timestamp ev) (session_id ev)])
        (stderr st)).
  { rewrite process_event_pass, transition_stop by done.
    by rewrite Hg, decide_False. }
  split; [done|].
  intros mid ev2 Hmid Ha2 Hsid Hl Hf2 st'.
  assert (Hopen : Dict.get (session_id ev) (start_times st')
                  = Some (start_login, start_time)).
  { unfold st'. rewrite process_events_get_other by done. by rewrite Hstep. }
  split; [done|].
  rewrite <- Hsid, <- Hl. apply stop_matches; try done; by rewrite ?Hsid, ?Hl.
Qed.

(** C6. A [Stop] whose session id has no entry in [start_times] appends
    one "Stop without Start" diagnostic and changes nothing else. *)
Theorem orphan_stop_only_reports (target : option string) (st : state)
  (ev : event) :
  action ev = "Stop" →
  filtered_out target (login ev) = false →
  Dict.get (session_id ev) (start_times st) = None →
  process_event target st ev
  = mk_state (start_times st) (total_time st)
      (missing_start_logs st
       ++ [StopWithoutStart (login ev) (timestamp ev) (session_id ev)])
      (stderr st).
Proof.
  intros Ha Hf Hg.
  rewrite process_event_pass, transition_stop by done. by rewrite Hg.
Qed.

(** C7. A [Start] sets the entry of its session id to its own login and
    timestamp, whatever was there, and touches neither the totals nor the
    diagnostics.  So when a [Start] is followed, with no [Stop] on that
    session id in between, by a second [Start] on it, and the session is
    left alone until the matching [Stop], the duration is measured from
    the second [Start], and the run ends in the very state it reaches
    without the first [Start]. *)
Theorem second_start_wins (target : option string) (st : state)
  (e1 e2 e3 : event) (mid mid' : list event) :
  action e1 = "Start" → action e2 = "Start" → action e3 = "Stop" →
  session_id e1 = session_id e2 → session_id e3 = session_id e2 →
  login e3 = login e2 →
  filtered_out target (login e2) = false →
  Forall (fun e => ¬ (action e = "Stop" ∧ session_id e = session_id e2)) mid →
  Forall (fun e => session_id e ≠ session_id e2) mid' →
  (∀ st0 : state,
      process_event target st0 e2
      = mk_state
          (Dict.set (session_id e2) (login e2, timestamp e2) (start_times st0))
          (total_time st0) (missing_start_logs st0) (stderr st0)
      ∧ Dict.get (session_id e2) (start_times (process_event target st0 e2))
        = Some (login e2, timestamp e2))
  ∧ (let st' := process_events target st (e1 :: mid ++ e2 :: mid') in
     process_events target st (e1 :: mid ++ e2 :: mid' ++ [e3])
     = mk_state (Dict.del (session_id e2) (start_times st'))
         (add_total (login e2)
            (total_seconds (timestamp e3) (timestamp e2)) (total_time st'))
         (missing_start_logs st') (stderr st'))
  ∧ process_events target st (e1 :: mid ++ e2 :: mid' ++ [e3])
    = process_events target st (mid ++ e2 :: mid' ++ [e3]).
Proof.
  intros Ha1 Ha2 Ha3 Hs1 Hs3 Hl Hf Hmid Hmid'.
  assert (Hstart : ∀ st0 : state,
    process_event target st0 e2
    = mk_state
        (Dict.set (session_id e2) (login e2, timestamp e2) (start_times st0))
        (total_time st0) (missing_start_logs st0) (stderr st0)
    ∧ Dict.get (session_id e2) (start_times (process_event target st0 e2))
      = Some (login e2, timestamp e2)).
  { intros st0. rewrite process_event_pass, transition_start by done.
    split; [done|]. cbn [start_times]. apply get_set_eq. }
  (* however the run starts, the [Stop] finds the second [Start] *)
  assert (Hpair : ∀ pre,
    process_events target st (pre ++ e2 :: mid' ++ [e3])
    = mk_state
        (Dict.del (session_id e2)
           (start_times (process_events target st (pre ++ e2 :: mid'))))
        (add_total (login e2) (total_seconds (timestamp e3) (timestamp e2))
           (total_time (process_events target st (pre ++ e2 :: mid'))))
        (missing_start_logs (process_events target st (pre ++ e2 :: mid')))
        (stderr (process_events target st (pre ++ e2 :: mid')))).
  { intros pre.
    replace (pre ++ e2 :: mid' ++ [e3]) with ((pre ++ e2 :: mid') ++ [e3])
      by (by rewrite <- app_assoc).
    rewrite (process_events_app _ _ (pre ++ e2 :: mid')).
    set (st' := process_events target st (pre ++ e2 :: mid')).
    change (process_events target st' [e3]) with (process_event target st' e3).
    rewrite <- Hs3, <- Hl. apply stop_matches; [done|by rewrite Hl|].
    rewrite Hs3, Hl. unfold st'.
    rewrite process_events_app, process_events_cons.
    rewrite process_events_get_other by done. apply Hstart. }
  (* and the first [Start] leaves no trace once the session is closed *)
  assert (Hag : agree_but (session_id e2)
                  (process_events target st ((e1 :: mid) ++ e2 :: mid'))
                  (process_events target st (mid ++ e2 :: mid'))).
  { rewrite <- app_comm_cons, process_events_cons.
    apply process_events_agree_but.
    - apply Forall_app. split; [done|]. constructor.
      + intros [Hstop _]. rewrite Ha2 in Hstop. discriminate.
      + eapply Forall_impl; [done|]. simpl. by intros e Hne [_ ?].
    - unfold process_event.
      destruct (filtered_out target (login e1)); [done|].
      rewrite transition_start by done.
      split_and!; try done. cbn [start_times]. by rewrite Hs1, del_set_eq. }
  destruct Hag as (Ht & Htot & Hd & He).
  split_and!; [done|apply (Hpair (e1 :: mid))|].
  rewrite (app_comm_cons mid _ e1).
  rewrite (Hpair (e1 :: mid)), (Hpair mid). by rewrite Ht, Htot, Hd, He.
Qed.

(* ===================================================================== *)
(** ** Whole passes *)
(* ===================================================================== *)

Section pass_facts.
Implicit Types (st : state) (ev : event) (target : option string).

Lemma process_events_with_stderr target st evs err :
  process_events target (with_stderr st err) evs
  = with_stderr (process_events target st evs) err.
Proof.
  revert st. induction evs as [|ev evs IH]; intros st; [done|].
  by rewrite !process_events_cons, process_event_with_stderr, IH.
Qed.

(** The loop over the rows is the state machine run over the events that
    the rows parse to; the parser's warnings only reach [stderr]. *)
Lemma process_rows_events parse target st rows :
  process_rows parse target st rows
  = with_stderr (process_events target st (events_of parse rows))
                (stderr st ++ warnings_of parse rows).
Proof.
  revert st. induction rows as [|row rows IH]; intros st.
  - simpl. unfold with_stderr. rewrite app_nil_r. by destruct st.
  - unfold process_rows in *. simpl. rewrite IH. clear IH.
    unfold process_row, events_of, warnings_of, event_of_row. simpl.
    destruct (length row <? 4)%nat; [done|].
    destruct (parse (join_row row)) as [[ev|] err]; simpl.
    + fold (with_stderr st (stderr st ++ err)).
      rewrite process_event_with_stderr, process_events_with_stderr.
      simpl. by rewrite app_assoc.
    + fold (with_stderr st (stderr st ++ err)).
      rewrite process_events_with_stderr. simpl. by rewrite app_assoc.
Qed.

Lemma events_of_gui rows :
  events_of Gui.parse_log_line rows = events_of parse_log_line rows.
Proof.
  assert (Hrow : ∀ row, event_of_row Gui.parse_log_line row
                       = event_of_row parse_log_line row).
  { intros row. unfold event_of_row, Gui.parse_log_line, parse_log_line.
    destruct (length row <? 4)%nat; [done|].
    by destruct (parse_log_line_try (join_row row)). }
  unfold events_of. induction rows as [|row rows IH]; [done|].
  cbn [omap list_omap]. by rewrite Hrow, IH.
Qed.

Lemma calculate_work_time_events rows target :
  calculate_work_time rows target
  = aggregate target (events_of parse_log_line rows).
Proof.
  unfold calculate_work_time, aggregate. by rewrite process_rows_events.
Qed.

Lemma gui_calculate_work_time_same rows target :
  gui_calculate_work_time rows target = calculate_work_time rows target.
Proof.
  unfold calculate_work_time, gui_calculate_work_time.
  by rewrite !process_rows_events, events_of_gui.
Qed.

(** *** The login filter *)

Lemma filtered_out_some t l :
  t ≠ "" → filtered_out (Some t) l = negb (bool_decide (l = t)).
Proof.
  intros Ht. unfold filtered_out, truthy.
  rewrite bool_decide_eq_false_2 by done. simpl. f_equal.
  apply bool_decide_ext. naive_solver.
Qed.

Lemma process_events_filter t st evs :
  t ≠ "" →
  process_events (Some t) st evs
  = process_events None st (filter (fun e => login e = t) evs).
Proof.
  intros Ht. revert st. induction evs as [|ev evs IH]; intros st; [done|].
  rewrite filter_cons, process_events_cons.
  destruct (decide (login ev = t)) as [Hl|Hl].
  - rewrite process_events_cons, IH.
    rewrite !process_event_pass; [done|done|].
    rewrite filtered_out_some by done. by rewrite bool_decide_eq_true_2.
  - rewrite process_event_skip; [apply IH|].
    rewrite filtered_out_some by done. by rewrite bool_decide_eq_false_2.
Qed.

(** *** Invariant of the pass *)

Lemma pass_invariant_initial target : pass_invariant target initial.
Proof. split_and!; simpl; constructor. Qed.

Lemma pass_invariant_step target st ev :
  pass_invariant target st → pass_invariant target (process_event target st ev).
Proof.
  intros (Hnd & Hdiag & Hlog). unfold process_event.
  destruct (filtered_out target (login ev)) eqn:Hf; [done|].
  destruct (action_cases ev) as [Ha|[Ha|[Ha1 Ha2]]].
  - rewrite transition_start by done. split_and!; simpl; try done.
    + by apply NoDup_keys_set.
    + by apply Forall_set.
  - rewrite transition_stop by done.
    destruct (Dict.get _ _) as [[l0 t0]|].
    + destruct (decide (l0 = login ev)); split_and!; simpl; try done.
      * by apply NoDup_keys_del.
      * by apply Forall_del.
      * apply Forall_app. split; [done|]. by repeat constructor.
    + split_and!; simpl; try done.
      apply Forall_app. split; [done|]. by repeat constructor.
  - rewrite transition_other by done. done.
Qed.

Lemma pass_invariant_run target st evs :
  pass_invariant target st → pass_invariant target (process_events target st evs).
Proof.
  revert st. induction evs as [|ev evs IH]; intros st Hinv; [done|].
  rewrite process_events_cons. by apply IH, pass_invariant_step.
Qed.

(** Under the invariant the final loop reports every open session. *)
Lemma unterminated_all target (table : list (string * (string * datetime))) :
  Forall (fun entry => filtered_out target entry.2.1 = false) table →
  unterminated target table = List.map unterminated_entry table.
Proof.
  induction 1 as [|[sid [l t0]] table Hf _ IH]; [done|].
  unfold unterminated in *. simpl in *. rewrite IH.
  unfold filtered_out in Hf.
  destruct (truthy target); simpl in *; [|done].
  apply negb_false_iff in Hf. by rewrite Hf.
Qed.

End pass_facts.

Section finalization_facts.
Implicit Types (st : state) (target : option string).

Lemma get_elem_of {V : Type} (k : string) (v : V) (d : list (string * V)) :
  Dict.get k d = Some v → (k, v) ∈ d.
Proof.
  induction d as [|[k' v'] d IH]; simpl; [done|].
  destruct (decide (k = k')) as [->|Hne].
  - intros [= ->]. by left.
  - intros Hg. right. by apply IH.
Qed.

Lemma unterminated_filter target (table : list (string * (string * datetime))) :
  unterminated target table
  = List.map unterminated_entry
      (filter (fun entry => filtered_out target entry.2.1 = false) table).
Proof.
  induction table as [|[sid [l t0]] table IH]; [done|].
  rewrite filter_cons. unfold unterminated in *. cbn [flat_map]. rewrite IH.
  cbn [fst snd]. unfold filtered_out.
  destruct (truthy target); simpl; [|done].
  by destruct (bool_decide (Some l = target)).
Qed.

Lemma unterminated_entries_NoDup (table : list (string * (string * datetime))) :
  NoDup (Dict.keys table) → NoDup (List.map unterminated_entry table).
Proof.
  intros Hnd. apply (NoDup_fmap_1 diagnostic_session).
  unfold Dict.keys in Hnd.
  replace (diagnostic_session <$> List.map unterminated_entry table)
    with (List.map fst table); [done|].
  clear Hnd. induction table as [|entry table IH]; [done|].
  simpl. by rewrite IH.
Qed.

Lemma count_stop_diagnostics (ds : list diagnostic) l t0 sid :
  Forall (fun d => stop_diagnostic d = true) ds →
  count_occ diagnostic_eq_dec ds (StartWithoutStop l t0 sid) = 0%nat.
Proof.
  intros Hds. apply count_occ_not_In. intros Hin%list_elem_of_In.
  rewrite Forall_forall in Hds. by specialize (Hds _ Hin).
Qed.

End finalization_facts.

(** C8. With a non-empty target login, an event of any other login leaves
    the state as it is; at every point of the pass each open session
    belongs to the target login; and the result is the one that the
    unfiltered aggregation gives on the events of the target login alone. *)
Theorem login_filter_is_prefilter (t : string) (evs : list event) :
  t ≠ "" →
  (∀ (st : state) (ev : event),
      login ev ≠ t → process_event (Some t) st ev = st)
  ∧ (∀ (n : nat) (sid l : string) (t0 : datetime),
        Dict.get sid (start_times (process_events (Some t) initial (take n evs)))
        = Some (l, t0) →
        l = t)
  ∧ aggregate (Some t) evs
    = aggregate None (filter (fun e => login e = t) evs)
  ∧ aggregate (Some t) evs
    = aggregate (Some t) (filter (fun e => login e = t) evs)
  ∧ (∀ rows : list (list string),
        events_of parse_log_line rows = evs →
        calculate_work_time rows (Some t)
        = aggregate None (filter (fun e => login e = t) evs)).
Proof.
  intros Ht.
  assert (Hinv : ∀ evs', ∀ sid l t0,
    Dict.get sid (start_times (process_events (Some t) initial evs'))
    = Some (l, t0) → l = t).
  { intros evs' sid l t0 Hg%get_elem_of.
    destruct (pass_invariant_run (Some t) initial evs'
                (pass_invariant_initial _)) as (_ & _ & Hlog).
    rewrite Forall_forall in Hlog. specialize (Hlog _ Hg). simpl in Hlog.
    rewrite filtered_out_some in Hlog by done.
    apply negb_false_iff, bool_decide_eq_true in Hlog. done. }
  assert (Hagg : ∀ evs', aggregate (Some t) evs'
                         = aggregate None (filter (fun e => login e = t) evs')).
  { intros evs'. unfold aggregate, result_of.
    rewrite <- process_events_filter by done.
    f_equal. f_equal.
    destruct (pass_invariant_run (Some t) initial evs'
                (pass_invariant_initial _)) as (_ & _ & Hlog).
    rewrite (unterminated_all (Some t)) by done.
    rewrite (unterminated_all None); [done|].
    apply Forall_forall. by intros. }
  split_and!.
  - intros st ev Hl. apply process_event_skip.
    rewrite filtered_out_some by done. by rewrite bool_decide_eq_false_2.
  - intros n. apply Hinv.
  - apply Hagg.
  - rewrite (Hagg evs), (Hagg (filter _ evs)).
    by rewrite list_filter_filter_l.
  - intros rows <-. rewrite calculate_work_time_events. apply Hagg.
Qed.

(** C4. After the pass, every session id still in [start_times] yields one
    "Start without Stop" diagnostic carrying its login, start time and
    session id: the final loop emits the entries that pass the login
    filter, in table order, and all of them pass it.  These are the only
    such diagnostics, and the returned pair holds the totals and the
    diagnostics only, so that no open session outlives the call. *)
Theorem open_sessions_reported_once (rows : list (list string))
  (target : option string) :
  let st := process_rows parse_log_line target initial rows in
  let r := calculate_work_time rows target in
  (∀ table, unterminated target table
            = List.map unterminated_entry
                (filter (fun entry => filtered_out target entry.2.1 = false)
                        table))
  ∧ r = (total_time st,
         missing_start_logs st ++ List.map unterminated_entry (start_times st))
  ∧ (∀ (sid l : string) (t0 : datetime),
        Dict.get sid (start_times st) = Some (l, t0) →
        count_occ diagnostic_eq_dec r.2 (StartWithoutStop l t0 sid) = 1%nat)
  ∧ (∀ (sid l : string) (t0 : datetime),
        StartWithoutStop l t0 sid ∈ r.2 →
        Dict.get sid (start_times st) = Some (l, t0)).
Proof.
  intros st r.
  assert (Hinv : pass_invariant target st).
  { unfold st. rewrite process_rows_events.
    destruct (pass_invariant_run target initial
                (events_of parse_log_line rows) (pass_invariant_initial _))
      as (? & ? & ?).
    by split_and!. }
  destruct Hinv as (Hnd & Hdiag & Hlog).
  assert (Hr : r = (total_time st,
    missing_start_logs st ++ List.map unterminated_entry (start_times st))).
  { unfold r, calculate_work_time, result_of. fold st.
    by rewrite unterminated_all. }
  split_and!; [apply unterminated_filter|done| |].
  - intros sid l t0 Hg. rewrite Hr. simpl.
    rewrite count_occ_app, count_stop_diagnostics by done. simpl.
    apply NoDup_count_occ';
      [by apply NoDup_ListNoDup, unterminated_entries_NoDup|].
    apply list_elem_of_In.
    apply get_elem_of in Hg.
    by apply (list_elem_of_fmap_2 unterminated_entry) in Hg.
  - intros sid l t0. rewrite Hr. simpl. rewrite elem_of_app.
    intros [Hin|Hin].
    + rewrite Forall_forall in Hdiag. by specialize (Hdiag _ Hin).
    + apply list_elem_of_In, in_map_iff in Hin as ([sid' [l' t0']] & Heq & Hin).
      injection Heq as -> -> ->.
      apply elem_of_get; [done|]. by apply list_elem_of_In.
Qed.

(* ===================================================================== *)
(** ** Growth of the totals *)
(* ===================================================================== *)

Section totals_facts.
Implicit Types (st : state) (ev : event) (target : option string).

(** The only change of a total is the duration of a matched [Stop]. *)
Lemma transition_total st ev l :
  total_of (total_time (transition st ev)) l
  = total_of (total_time st) l
    + match matched_duration st ev with
      | Some d => if decide (login ev = l) then d else 0
      | None => 0
      end.
Proof.
  unfold matched_duration.
  destruct (action_cases ev) as [Ha|[Ha|[Ha1 Ha2]]].
  - rewrite transition_start, decide_False by (by rewrite ?Ha). simpl. lia.
  - rewrite transition_stop, decide_True by done.
    destruct (Dict.get _ _) as [[l0 t0]|]; [|simpl; lia].
    destruct (decide (l0 = login ev)); [|simpl; lia].
    simpl. rewrite total_of_add_total.
    destruct (decide (login ev = l)); lia.
  - rewrite transition_other, decide_False by done. lia.
Qed.

Lemma no_negative_match_app target st evs1 evs2 :
  no_negative_match target st (evs1 ++ evs2)
  = no_negative_match target st evs1
    && no_negative_match target (process_events target st evs1) evs2.
Proof.
  revert st. induction evs1 as [|ev evs1 IH]; intros st; [done|].
  simpl. by rewrite IH, andb_assoc.
Qed.

Lemma process_event_total_le target st ev l :
  no_negative_match target st [ev] = true →
  total_of (total_time st) l
  ≤ total_of (total_time (process_event target st ev)) l.
Proof.
  simpl. rewrite andb_true_r. unfold process_event.
  destruct (filtered_out target (login ev)); simpl; [lia|].
  rewrite transition_total.
  destruct (matched_duration st ev) as [d|]; [|lia].
  intros Hd%Z.leb_le. destruct (decide (login ev = l)); lia.
Qed.

Lemma process_events_total_le target st evs l :
  no_negative_match target st evs = true →
  total_of (total_time st) l
  ≤ total_of (total_time (process_events target st evs)) l.
Proof.
  revert st. induction evs as [|ev evs IH]; intros st; [simpl; lia|].
  change (ev :: evs) with ([ev] ++ evs).
  rewrite no_negative_match_app. intros [H1 H2]%andb_true_iff.
  etrans; [by apply process_event_total_le|]. by apply IH.
Qed.

(** In a chronological log every open session started no later than the
    event at hand, so no match is negative. *)
Lemma chronological_no_negative_match_from target st evs :
  chronological evs = true →
  (∀ ev, head evs = Some ev →
         Forall (fun entry : string * (string * datetime) =>
                   PyDatetime.seconds_of entry.2.2
                   ≤ PyDatetime.seconds_of (timestamp ev)) (start_times st)) →
  no_negative_match target st evs = true.
Proof.
  revert st. induction evs as [|ev evs IH]; intros st Hchr Hst; [done|].
  specialize (Hst ev eq_refl).
  cbn [no_negative_match]. apply andb_true_iff. split.
  - apply orb_true_iff. right. unfold matched_duration.
    destruct (decide (action ev = "Stop")); [|done].
    destruct (Dict.get _ _) as [[l0 t0]|] eqn:Hg; [|done].
    destruct (decide (l0 = login ev)); [|done].
    apply get_elem_of in Hg. rewrite Forall_forall in Hst.
    specialize (Hst _ Hg). simpl in Hst.
    apply Z.leb_le. unfold total_seconds. lia.
  - apply IH.
    + simpl in Hchr. destruct evs; [done|].
      by apply andb_true_iff in Hchr as [_ ?].
    + intros ev' Hev'. destruct evs as [|ev0 evs]; [done|].
      injection Hev' as ->. simpl in Hchr.
      apply andb_true_iff in Hchr as [Hle%Z.leb_le _].
      assert (Hold : Forall (fun entry : string * (string * datetime) =>
                 PyDatetime.seconds_of entry.2.2
                 ≤ PyDatetime.seconds_of (timestamp ev')) (start_times st)).
      { eapply Forall_impl; [done|]. simpl. intros; lia. }
      unfold process_event. destruct (filtered_out _ _); [done|].
      destruct (action_cases ev) as [Ha|[Ha|[Ha1 Ha2]]].
      * rewrite transition_start by done. simpl. by apply Forall_set.
      * rewrite transition_stop by done.
        destruct (Dict.get _ _) as [[l0 t0]|]; [|done].
        destruct (decide (l0 = login ev)); [|done].
        simpl. by apply Forall_del.
      * by rewrite transition_other.
Qed.

Lemma chronological_no_negative_match target evs :
  chronological evs = true → no_negative_match target initial evs = true.
Proof.
  intros Hchr. apply chronological_no_negative_match_from; [done|].
  intros. constructor.
Qed.

End totals_facts.

(** C2, as the code has it.  The totals are neither non-negative nor
    non-decreasing in general: after alice opens s1 at 10 o'clock her total
    is 0, and a [Stop] at 9 o'clock on s1 takes it to -3600. *)
Lemma negative_total_after_early_stop :
  total_of (total_time (process_events None initial [Sample.alice_start_10]))
    "alice" = 0
  ∧ total_of
      (total_time
         (process_events None initial
            ([Sample.alice_start_10] ++ [Sample.alice_stop_9]))) "alice"
    = -3600
  ∧ ¬ (0 ≤ total_of
             (total_time
                (process_events None initial
                   ([Sample.alice_start_10] ++ [Sample.alice_stop_9])))
             "alice")
  ∧ ¬ (total_of
         (total_time (process_events None initial [Sample.alice_start_10]))
         "alice"
       ≤ total_of
           (total_time
              (process_events None initial
                 ([Sample.alice_start_10] ++ [Sample.alice_stop_9])))
           "alice").
Proof. split_and!; [done|done| |]; by vm_compute. Qed.

(** C2, amended.  In a run where no [Stop] is matched with a [Start] that
    is later than it, every total is non-negative at every point and no
    event decreases a total. *)
Theorem totals_grow_without_negative_match (target : option string)
  (evs : list event) (ev : event) (l : string) :
  no_negative_match target initial (evs ++ [ev]) = true →
  0 ≤ total_of (total_time (process_events target initial evs)) l
  ∧ total_of (total_time (process_events target initial evs)) l
    ≤ total_of (total_time (process_events target initial (evs ++ [ev]))) l
  ∧ 0 ≤ total_of (total_time (process_events target initial (evs ++ [ev]))) l.
Proof.
  rewrite no_negative_match_app. intros [H1 H2]%andb_true_iff.
  pose proof (process_events_total_le target initial evs l H1) as Hle1.
  pose proof (process_event_total_le target _ ev l H2) as Hle2.
  rewrite process_events_app.
  change (process_events target ?s [ev]) with (process_event target s ev).
  change (total_of (total_time initial) l) with 0 in Hle1. lia.
Qed.

(* ===================================================================== *)
(** ** Logs made of matched pairs *)
(* ===================================================================== *)

Section matched_facts.
Implicit Types (st : state) (ev : event) (target : option string).







Lemma process_events_unfiltered target st evs :
  truthy target = false →
  process_events target st evs = process_events None st evs.
Proof.
  intros Ht. revert st. induction evs as [|ev evs IH]; intros st; [done|].
  rewrite !process_events_cons, IH. unfold process_event, filtered_out.
  by rewrite Ht.
Qed.



End matched_facts.


(* ===================================================================== *)
(** ** The properties on sample logs *)
(* ===================================================================== *)

(** The three examples of the specification. *)
Example working_day_total :
  calculate_work_time Sample.working_day None = ({["alice" := 28800]}, []).
Proof. by vm_compute. Qed.

Example orphan_stop_reported :
  calculate_work_time Sample.orphan_stop None
  = (∅, [StopWithoutStart "bob" (Sample.at_hour 10) "s2"]).
Proof. by vm_compute. Qed.

Example open_start_reported :
  calculate_work_time Sample.open_start None
  = (∅, [StartWithoutStop "alice" (Sample.at_hour 9) "s3"]).
Proof. by vm_compute. Qed.

Example early_stop_is_negative_match :
  no_negative_match None initial [Sample.alice_start_10; Sample.alice_stop_9]
  = false.
Proof. by vm_compute. Qed.

(** [strptime] takes the fields of [DATE_FORMAT] without their leading
    zeros and any run of white space between date and time, and refuses a
    date that the calendar does not have. *)
Example strptime_unpadded :
  strptime (list_ascii_of_string "2024-1-1  9:0:0") = Ret (Sample.at_hour 9).
Proof. by vm_compute. Qed.

Example strptime_no_such_day :
  strptime (list_ascii_of_string "2023-02-29 09:00:00") = Raise ValueError.
Proof. by vm_compute. Qed.


Lemma totals_grow_without_negative_match_witness :
  no_negative_match None initial ([Sample.alice_start_9] ++ [Sample.alice_stop_17])
  = true
  ∧ 0 ≤ total_of (total_time (process_events None initial [Sample.alice_start_9]))
          "alice"
  ∧ total_of (total_time (process_events None initial [Sample.alice_start_9]))
      "alice"
    ≤ total_of
        (total_time
           (process_events None initial
              ([Sample.alice_start_9] ++ [Sample.alice_stop_17]))) "alice"
  ∧ 0 ≤ total_of
          (total_time
             (process_events None initial
                ([Sample.alice_start_9] ++ [Sample.alice_stop_17]))) "alice".
Proof.
  split; [reflexivity|].
  exact (totals_grow_without_negative_match None [Sample.alice_start_9]
           Sample.alice_stop_17 "alice" eq_refl).
Defined.


Lemma open_sessions_reported_once_witness :
  Dict.get "s3"
    (start_times (process_rows parse_log_line None initial Sample.open_start))
  = Some ("alice", Sample.at_hour 9)
  ∧ count_occ diagnostic_eq_dec
      (calculate_work_time Sample.open_start None).2
      (StartWithoutStop "alice" (Sample.at_hour 9) "s3") = 1%nat.
Proof.
  split; [reflexivity|].
  exact (proj1 (proj2 (proj2
           (open_sessions_reported_once Sample.open_start None)))
           "s3" "alice" (Sample.at_hour 9) eq_refl).
Defined.

Lemma foreign_stop_keeps_session_open_witness :
  action Sample.bob_stop_10 = "Stop"
  ∧ filtered_out None (login Sample.bob_stop_10) = false
  ∧ Dict.get (session_id Sample.bob_stop_10) (start_times Sample.opened_at_9)
    = Some ("alice", Sample.at_hour 9)
  ∧ "alice" ≠ login Sample.bob_stop_10
  ∧ process_event None Sample.opened_at_9 Sample.bob_stop_10
    = mk_state (start_times Sample.opened_at_9) (total_time Sample.opened_at_9)
        (missing_start_logs Sample.opened_at_9
         ++ [StopForeignSession "bob" (Sample.at_hour 10) "s1"])
        (stderr Sample.opened_at_9)
  ∧ process_event None
      (process_events None
         (process_event None Sample.opened_at_9 Sample.bob_stop_10)
         [Sample.bob_start_9])
      Sample.alice_stop_17
    = mk_state [("s2", ("bob", Sample.at_hour 9))]
        {["alice" := 28800]}
        [StopForeignSession "bob" (Sample.at_hour 10) "s1"] [].
Proof.
  assert (Hne : "alice" ≠ login Sample.bob_stop_10) by discriminate.
  assert (Hmid : Forall (fun e => session_id e ≠ session_id Sample.bob_stop_10)
                   [Sample.bob_start_9]).
  { constructor; [discriminate|constructor]. }
  pose proof (foreign_stop_keeps_session_open None Sample.opened_at_9
                Sample.bob_stop_10 "alice" (Sample.at_hour 9)
                eq_refl eq_refl eq_refl Hne) as [Hstep Hlater].
  split; [reflexivity|]. split; [reflexivity|]. split; [reflexivity|].
  split; [exact Hne|]. split; [exact Hstep|].
  exact (proj2 (Hlater [Sample.bob_start_9] Sample.alice_stop_17 Hmid
                  eq_refl eq_refl eq_refl eq_refl)).
Defined.

Lemma orphan_stop_only_reports_witness :
  action Sample.bob_stop_10 = "Stop"
  ∧ filtered_out None (login Sample.bob_stop_10) = false
  ∧ Dict.get (session_id Sample.bob_stop_10) (start_times initial) = None
  ∧ process_event None initial Sample.bob_stop_10
    = mk_state [] ∅ [StopWithoutStart "bob" (Sample.at_hour 10) "s1"] [].
Proof.
  split; [reflexivity|]. split; [reflexivity|]. split; [reflexivity|].
  exact (orphan_stop_only_reports None initial Sample.bob_stop_10
           eq_refl eq_refl eq_refl).
Defined.

Lemma second_start_wins_witness :
  Forall (fun e => ¬ (action e = "Stop"
                      ∧ session_id e = session_id Sample.alice_start_10))
         [Sample.bob_start_9]
  ∧ process_events None initial
      (Sample.alice_start_9
       :: [Sample.bob_start_9]
          ++ Sample.alice_start_10 :: [Sample.bob_start_9]
             ++ [Sample.alice_stop_17])
    = mk_state [("s2", ("bob", Sample.at_hour 9))]
        {["alice" := 25200]} [] []
  ∧ process_events None initial
      (Sample.alice_start_9
       :: [Sample.bob_start_9]
          ++ Sample.alice_start_10 :: [Sample.bob_start_9]
             ++ [Sample.alice_stop_17])
    = process_events None initial
        ([Sample.bob_start_9]
         ++ Sample.alice_start_10 :: [Sample.bob_start_9]
            ++ [Sample.alice_stop_17]).
Proof.
  assert (Hmid : Forall (fun e => ¬ (action e = "Stop"
                      ∧ session_id e = session_id Sample.alice_start_10))
                   [Sample.bob_start_9]).
  { constructor; [|constructor]. intros [Hstop _]. discriminate Hstop. }
  assert (Hmid' : Forall (fun e => session_id e ≠ session_id Sample.alice_start_10)
                    [Sample.bob_start_9]).
  { constructor; [discriminate|constructor]. }
  pose proof (second_start_wins None initial Sample.alice_start_9
                Sample.alice_start_10 Sample.alice_stop_17
                [Sample.bob_start_9] [Sample.bob_start_9]
                eq_refl eq_refl eq_refl eq_refl eq_refl eq_refl eq_refl
                Hmid Hmid')
    as (_ & Hrun & Hsame).
  split; [exact Hmid|]. split; [exact Hrun|exact Hsame].
Defined.

Lemma login_filter_is_prefilter_witness :
  "alice" ≠ ""
  ∧ aggregate (Some "alice")
      [Sample.alice_start_9; Sample.bob_start_9; Sample.bob_stop_10;
       Sample.alice_stop_17]
    = aggregate None
        (filter (fun e => login e = "alice")
           [Sample.alice_start_9; Sample.bob_start_9; Sample.bob_stop_10;
            Sample.alice_stop_17]).
Proof.
  assert (Hne : "alice" ≠ "") by discriminate.
  split; [exact Hne|].
  exact (proj1 (proj2 (proj2
           (login_filter_is_prefilter "alice"
              [Sample.alice_start_9; Sample.bob_start_9; Sample.bob_stop_10;
               Sample.alice_stop_17] Hne)))).
Defined.


(* ===================================================================== *)
(** ** Splitting and joining *)
(* ===================================================================== *)

Section split_facts.
Implicit Types (d c : ascii) (s : list ascii) (parts : list (list ascii)).

Lemma split_no_sep d s :
  Forall (fun c => c ≠ d) s → PyStr.split d s = [s].
Proof.
  induction 1 as [|c s Hc _ IH]; [done|].
  simpl. rewrite IH. by apply Ascii.eqb_neq in Hc as ->.
Qed.

Lemma split_app_sep d s1 s2 :
  Forall (fun c => c ≠ d) s1 →
  PyStr.split d (s1 ++ d :: s2) = s1 :: PyStr.split d s2.
Proof.
  induction 1 as [|c s1 Hc _ IH]; simpl.
  - by rewrite Ascii.eqb_refl.
  - rewrite IH. by apply Ascii.eqb_neq in Hc as ->.
Qed.

Lemma split_cons_inv d s : ∃ p ps, PyStr.split d s = p :: ps.
Proof.
  destruct s as [|c s]; simpl; [by eexists _, _|].
  destruct (Ascii.eqb c d); [by eexists _, _|].
  destruct (PyStr.split d s); by eexists _, _.
Qed.

End split_facts.

(* ===================================================================== *)
(** ** [format_duration] *)
(* ===================================================================== *)

Section format_facts.
Import PyFormat.

Lemma digit_char_spec (v : Z) :
  0 ≤ v ≤ 9 →
  Regex.is_digit (digit_char v) = true ∧ Regex.digit_val (digit_char v) = v.
Proof.
  intros Hv.
  assert (Hcases : v = 0 ∨ v = 1 ∨ v = 2 ∨ v = 3 ∨ v = 4 ∨ v = 5 ∨ v = 6
                   ∨ v = 7 ∨ v = 8 ∨ v = 9) by lia.
  repeat (destruct Hcases as [->|Hcases]; [by vm_compute|]). by subst.
Qed.

Lemma digits_value_snoc ds c :
  digits_value (ds ++ [c]) = 10 * digits_value ds + Regex.digit_val c.
Proof. unfold digits_value. by rewrite fold_left_app. Qed.

Lemma digits_fuel_value fuel n :
  0 ≤ n < 2 ^ Z.of_nat fuel → digits_value (digits_fuel fuel n) = n.
Proof.
  revert n. induction fuel as [|fuel IH]; intros n Hn.
  - change (2 ^ Z.of_nat 0) with 1 in Hn. by assert (n = 0) as -> by lia.
  - simpl. destruct (Z.ltb_spec n 10) as [Hlt|Hge].
    + unfold digits_value. simpl.
      destruct (digit_char_spec n) as [_ ->]; lia.
    + rewrite digits_value_snoc, IH.
      * pose proof (Z.mod_pos_bound n 10).
        destruct (digit_char_spec (n mod 10)) as [_ ->]; [lia|].
        pose proof (Z.div_mod n 10). lia.
      * rewrite Nat2Z.inj_succ, Z.pow_succ_r in Hn by lia.
        split; [apply Z.div_pos; lia|].
        apply Z.div_lt_upper_bound; lia.
Qed.

Lemma enough_fuel n : 0 ≤ n → n < 2 ^ Z.of_nat (S (Z.to_nat (Z.log2 n))).
Proof.
  intros Hn. rewrite Nat2Z.inj_succ, Z2Nat.id by apply Z.log2_nonneg.
  destruct (decide (n = 0)) as [->|Hne]; [done|].
  apply Z.log2_spec. lia.
Qed.

Lemma digits_value_digits n : 0 ≤ n → digits_value (digits n) = n.
Proof.
  intros Hn. apply digits_fuel_value. split; [done|]. by apply enough_fuel.
Qed.

Lemma digits_fuel_are_digits fuel n :
  0 ≤ n → Forall (fun c => Regex.is_digit c = true) (digits_fuel fuel n).
Proof.
  revert n. induction fuel as [|fuel IH]; intros n Hn; [constructor|].
  simpl. destruct (Z.ltb_spec n 10) as [Hlt|Hge].
  - repeat constructor. apply digit_char_spec. lia.
  - apply Forall_app. split.
    + apply IH. apply Z.div_pos; lia.
    + repeat constructor. apply digit_char_spec.
      pose proof (Z.mod_pos_bound n 10). lia.
Qed.

Lemma digits_fuel_length fuel n :
  0 ≤ n < 2 ^ Z.of_nat (S fuel) →
  (n < 10 → length (digits_fuel (S fuel) n) = 1%nat)
  ∧ (10 ≤ n < 100 → length (digits_fuel (S fuel) n) = 2%nat)
  ∧ (100 ≤ n → (3 ≤ length (digits_fuel (S fuel) n))%nat).
Proof.
  intros Hn.
  assert (Hone : ∀ f m, 0 ≤ m < 2 ^ Z.of_nat f → 0 < m →
                        (1 ≤ length (digits_fuel f m))%nat).
  { intros [|f] m Hm Hpos; [change (2 ^ Z.of_nat 0) with 1 in Hm; lia|].
    simpl. destruct (m <? 10); [simpl; lia|]. rewrite length_app. simpl. lia. }
  assert (Hdiv : ∀ f m, 0 ≤ m < 2 ^ Z.of_nat (S f) →
                        0 ≤ m / 10 < 2 ^ Z.of_nat f).
  { intros f m Hm. rewrite Nat2Z.inj_succ, Z.pow_succ_r in Hm by lia.
    split; [apply Z.div_pos; lia|apply Z.div_lt_upper_bound; lia]. }
  cbn [digits_fuel].
  destruct (Z.ltb_spec n 10) as [Hlt|Hge]; [split_and!; [done|lia|lia]|].
  rewrite length_app. simpl.
  pose proof (Hdiv _ _ Hn) as Hn1.
  destruct fuel as [|fuel].
  { change (2 ^ Z.of_nat 0) with 1 in Hn1.
    assert (10 ≤ n / 10 * 10 + n mod 10) by (pose proof (Z.div_mod n 10); lia).
    pose proof (Z.mod_pos_bound n 10). lia. }
  cbn [digits_fuel]. destruct (Z.ltb_spec (n / 10) 10) as [Hlt1|Hge1].
  - simpl. split_and!; [lia|done|].
    intros H100. assert (10 ≤ n / 10) by (apply Z.div_le_lower_bound; lia). lia.
  - rewrite length_app. simpl.
    assert (n / 10 < 10 ↔ n < 100).
    { split; intros ?; [|apply Z.div_lt_upper_bound; lia].
      pose proof (Z.div_mod n 10). pose proof (Z.mod_pos_bound n 10). lia. }
    split_and!; [lia|lia|]. intros _.
    pose proof (Hone fuel (n / 10 / 10) (Hdiv _ _ Hn1)) as H1.
    assert (0 < n / 10 / 10) by (apply Z.div_str_pos; lia).
    specialize (H1 ltac:(done)). lia.
Qed.

Lemma format_02d_length n :
  0 ≤ n →
  (n < 100 → length (format_02d n) = 2%nat)
  ∧ (100 ≤ n → (3 ≤ length (format_02d n))%nat).
Proof.
  intros Hn. unfold format_02d, digits.
  destruct (digits_fuel_length _ n (conj Hn (enough_fuel n Hn)))
    as (H1 & H2 & H3).
  destruct (Z.ltb_spec n 0); [lia|].
  destruct (Z.ltb_spec n 10).
  - cbn [length]. rewrite H1 by done. split; [done|lia].
  - split; [intros; apply H2; lia|done].
Qed.

Lemma signed_value_format_02d n : signed_value (format_02d n) = n.
Proof.
  unfold format_02d.
  destruct (Z.ltb_spec n 0) as [Hneg|Hpos].
  - simpl. rewrite digits_value_digits by lia. lia.
  - destruct (Z.ltb_spec n 10) as [Hlt|Hge].
    + simpl. unfold digits_value. simpl.
      fold (digits_value (digits n)). by apply digits_value_digits.
    + pose proof (digits_value_digits n Hpos) as Hv.
      pose proof (digits_fuel_are_digits (S (Z.to_nat (Z.log2 n))) n Hpos) as Hd.
      fold (digits n) in Hd.
      destruct (digits n) as [|c ds] eqn:Hds; [done|].
      simpl. apply Forall_cons in Hd as [Hc _].
      destruct (Ascii.eqb_spec c "-"%char) as [->|_]; [done|]. done.
Qed.

Lemma format_02d_no_colon n : Forall (fun c => c ≠ ":"%char) (format_02d n).
Proof.
  assert (Hdig : ∀ m, 0 ≤ m → Forall (fun c => c ≠ ":"%char) (digits m)).
  { intros m Hm. eapply Forall_impl; [by apply digits_fuel_are_digits|].
    simpl. by intros c Hc ->. }
  unfold format_02d. destruct (Z.ltb_spec n 0); [|destruct (n <? 10)].
  - constructor; [done|]. apply Hdig. lia.
  - constructor; [done|]. by apply Hdig.
  - by apply Hdig.
Qed.

(** The three fields of the text, read back. *)
Lemma format_duration_fields seconds :
  PyStr.split ":" (list_ascii_of_string (format_duration seconds))
  = [format_02d (seconds / 3600);
     format_02d (seconds mod 3600 / 60);
     format_02d (seconds mod 3600 mod 60)].
Proof.
  unfold format_duration, str. rewrite list_ascii_of_string_of_list_ascii.
  rewrite split_app_sep by apply format_02d_no_colon.
  rewrite split_app_sep by apply format_02d_no_colon.
  by rewrite split_no_sep by apply format_02d_no_colon.
Qed.

End format_facts.

(** X1. [format_duration] never gives the same text for two different
    numbers of seconds: the hours field is not cut and not wrapped. *)
Theorem format_duration_injective (a b : Z) :
  format_duration a = format_duration b → a = b.
Proof.
  intros Heq.
  pose proof (format_duration_fields a) as Ha.
  rewrite Heq, format_duration_fields in Ha.
  injection Ha as Hh Hm Hs.
  apply (f_equal PyFormat.signed_value) in Hh, Hm, Hs.
  rewrite !signed_value_format_02d in Hh, Hm, Hs.
  pose proof (Z.div_mod a 3600). pose proof (Z.div_mod b 3600).
  pose proof (Z.div_mod (a mod 3600) 60).
  pose proof (Z.div_mod (b mod 3600) 60). lia.
Qed.

Lemma format_duration_injective_witness :
  format_duration 28800 = format_duration (8 * 3600) ∧ 28800 = 8 * 3600.
Proof.
  split; [reflexivity|].
  exact (format_duration_injective 28800 (8 * 3600) eq_refl).
Defined.

(** X2. For a non-negative number of seconds the text has the eight
    characters of HH:MM:SS exactly when it is below 100 hours; from 100
    hours on the hours field grows and the text is longer. *)
Theorem format_duration_width (seconds : Z) :
  0 ≤ seconds →
  (seconds < 360000 → String.length (format_duration seconds) = 8%nat)
  ∧ (360000 ≤ seconds → (9 ≤ String.length (format_duration seconds))%nat).
Proof.
  intros Hs.
  assert (Hlen : String.length (format_duration seconds)
                 = (length (PyFormat.format_02d (seconds / 3600)) + 6)%nat).
  { assert (Hl : ∀ l, String.length (str l) = length l).
    { induction l as [|c l IH]; simpl; by rewrite ?IH. }
    unfold format_duration. rewrite Hl.
    rewrite length_app. cbn [length]. rewrite length_app. cbn [length].
    pose proof (Z.mod_pos_bound seconds 3600).
    pose proof (Z.mod_pos_bound (seconds mod 3600) 60).
    assert (0 ≤ seconds mod 3600 / 60 < 60).
    { split; [apply Z.div_pos; lia|apply Z.div_lt_upper_bound; lia]. }
    destruct (format_02d_length (seconds mod 3600 / 60)) as [-> _]; [lia| |lia].
    destruct (format_02d_length (seconds mod 3600 mod 60)) as [-> _]; lia. }
  rewrite Hlen.
  assert (0 ≤ seconds / 3600) by (apply Z.div_pos; lia).
  destruct (format_02d_length (seconds / 3600)) as [H2 H3]; [done|].
  split; intros Hb.
  - rewrite H2; [done|]. apply Z.div_lt_upper_bound; lia.
  - assert (100 ≤ seconds / 3600) by (apply Z.div_le_lower_bound; lia).
    specialize (H3 ltac:(done)). lia.
Qed.

Lemma format_duration_width_witness :
  0 ≤ 359999
  ∧ String.length (format_duration 359999) = 8%nat
  ∧ (9 ≤ String.length (format_duration 360000))%nat.
Proof.
  assert (H0 : 0 ≤ 359999) by lia.
  assert (H1 : 0 ≤ 360000) by lia.
  split; [exact H0|]. split.
  - apply (proj1 (format_duration_width 359999 H0)). lia.
  - apply (proj2 (format_duration_width 360000 H1)). lia.
Defined.

(** X3. A negative number of seconds is shown with the hours rounded
    down and the minutes and seconds counted up from there: the text is
    a minus sign, the digits of [-(seconds div 3600)], and the MM:SS part
    of [seconds mod 3600]; so -1 is shown as -1:59:59. *)
Theorem format_duration_negative (seconds : Z) :
  seconds < 0 →
  ∃ mmss : string,
    format_duration (seconds mod 3600) = ("00" ++ mmss)%string
    ∧ format_duration seconds
      = ("-" ++ str (PyFormat.digits (- (seconds / 3600))) ++ mmss)%string.
Proof.
  intros Hneg.
  pose proof (Z.mod_pos_bound seconds 3600 ltac:(lia)) as Hr.
  assert (Hq : seconds / 3600 < 0) by (apply Z.div_lt_upper_bound; lia).
  exists (str (":"%char :: PyFormat.format_02d (seconds mod 3600 / 60)
               ++ ":"%char :: PyFormat.format_02d (seconds mod 3600 mod 60))).
  assert (Happ : ∀ l1 l2, str (l1 ++ l2) = (str l1 ++ str l2)%string).
  { induction l1 as [|c l1 IH]; intros l2; simpl; [done|]. by rewrite IH. }
  unfold format_duration. split.
  - rewrite Z.mod_mod by lia.
    rewrite (Z.div_small (seconds mod 3600)) by lia.
    by rewrite Happ.
  - unfold PyFormat.format_02d at 1.
    destruct (Z.ltb_spec (seconds / 3600) 0); [|lia].
    rewrite <- app_comm_cons. unfold str in *.
    cbn [string_of_list_ascii String.append]. f_equal. apply Happ.
Qed.

Lemma format_duration_negative_witness :
  -1 < 0
  ∧ ∃ mmss : string,
      format_duration ((-1) mod 3600) = ("00" ++ mmss)%string
      ∧ format_duration (-1)
        = ("-" ++ str (PyFormat.digits (- ((-1) / 3600))) ++ mmss)%string.
Proof.
  assert (H : -1 < 0) by lia.
  split; [exact H|]. exact (format_duration_negative (-1) H).
Defined.

Example minus_one_second : format_duration (-1) = "-1:59:59".
Proof. by vm_compute. Qed.

(* ===================================================================== *)
(** ** Rows, lines and parts *)
(* ===================================================================== *)

Section strip_facts.
Implicit Types (p : ascii → bool) (s ws : list ascii).

Lemma lstrip_app p s t :
  PyStr.lstrip_by p (s ++ t)
  = match PyStr.lstrip_by p s with
    | [] => PyStr.lstrip_by p t
    | r => r ++ t
    end.
Proof.
  induction s as [|c s IH]; simpl; [by destruct (PyStr.lstrip_by p t)|].
  by destruct (p c).
Qed.

Lemma lstrip_all p ws :
  Forall (fun c => p c = true) ws → PyStr.lstrip_by p ws = [].
Proof. induction 1 as [|c ws Hc _ IH]; simpl; [done|]. by rewrite Hc. Qed.

Lemma lstrip_prefix p ws s :
  Forall (fun c => p c = true) ws →
  PyStr.lstrip_by p (ws ++ s) = PyStr.lstrip_by p s.
Proof. intros Hws. by rewrite lstrip_app, lstrip_all. Qed.

Lemma lstrip_decomp p s :
  ∃ ws, Forall (fun c => p c = true) ws ∧ s = ws ++ PyStr.lstrip_by p s.
Proof.
  induction s as [|c s (ws & Hws & IH)]; simpl; [by exists []|].
  destruct (p c) eqn:Hc.
  - exists (c :: ws). split; [by constructor|]. simpl. by f_equal.
  - by exists [].
Qed.

Lemma rstrip_suffix p s ws :
  Forall (fun c => p c = true) ws →
  PyStr.rstrip_by p (s ++ ws) = PyStr.rstrip_by p s.
Proof.
  intros Hws. unfold PyStr.rstrip_by.
  rewrite rev_app_distr, lstrip_prefix; [done|].
  apply Forall_forall. intros c Hc%list_elem_of_In%in_rev%list_elem_of_In.
  rewrite Forall_forall in Hws. by apply Hws.
Qed.

Lemma rstrip_decomp p s :
  ∃ ws, Forall (fun c => p c = true) ws ∧ s = PyStr.rstrip_by p s ++ ws.
Proof.
  destruct (lstrip_decomp p (rev s)) as (ws & Hws & Heq).
  exists (rev ws). split.
  - apply Forall_forall. intros c Hc%list_elem_of_In%in_rev%list_elem_of_In.
    rewrite Forall_forall in Hws. by apply Hws.
  - unfold PyStr.rstrip_by. rewrite <- rev_app_distr, <- Heq.
    by rewrite rev_involutive.
Qed.

Lemma strip_prefix p ws s :
  Forall (fun c => p c = true) ws →
  PyStr.strip_by p (ws ++ s) = PyStr.strip_by p s.
Proof. intros Hws. unfold PyStr.strip_by. by rewrite lstrip_prefix. Qed.

Lemma strip_suffix p s ws :
  Forall (fun c => p c = true) ws →
  PyStr.strip_by p (s ++ ws) = PyStr.strip_by p s.
Proof.
  intros Hws. unfold PyStr.strip_by. rewrite lstrip_app.
  destruct (PyStr.lstrip_by p s) as [|c r] eqn:Hs.
  - by rewrite lstrip_all.
  - by rewrite rstrip_suffix.
Qed.

(** A text is its stripped core between two runs of stripped characters. *)
Lemma strip_decomp p s :
  ∃ ws1 ws2,
    Forall (fun c => p c = true) ws1 ∧ Forall (fun c => p c = true) ws2
    ∧ s = ws1 ++ PyStr.strip_by p s ++ ws2.
Proof.
  destruct (lstrip_decomp p s) as (ws1 & Hws1 & H1).
  destruct (rstrip_decomp p (PyStr.lstrip_by p s)) as (ws2 & Hws2 & H2).
  exists ws1, ws2. split_and!; [done|done|].
  unfold PyStr.strip_by. by rewrite <- H2.
Qed.

End strip_facts.

Section parts_facts.
Implicit Types (d c : ascii) (s ws : list ascii) (row : list string).

Lemma split_prefix d ws s :
  Forall (fun c => c ≠ d) ws →
  ∃ h t, PyStr.split d s = h :: t ∧ PyStr.split d (ws ++ s) = (ws ++ h) :: t.
Proof.
  intros Hws. destruct (split_cons_inv d s) as (h & t & Hs).
  exists h, t. split; [done|].
  induction Hws as [|c ws Hc _ IH]; simpl; [done|].
  rewrite IH. by apply Ascii.eqb_neq in Hc as ->.
Qed.

Lemma split_suffix d s ws :
  Forall (fun c => c ≠ d) ws →
  PyStr.split d (s ++ ws)
  = removelast (PyStr.split d s) ++ [List.last (PyStr.split d s) [] ++ ws].
Proof.
  intros Hws. induction s as [|c s IH].
  - simpl. by apply split_no_sep.
  - cbn [app PyStr.split]. rewrite IH.
    destruct (split_cons_inv d s) as (h & t & ->).
    destruct (Ascii.eqb c d); [done|].
    by destruct t as [|h' t].
Qed.

Lemma split_length d s :
  length (PyStr.split d s) = S (count_occ ascii_dec s d).
Proof.
  induction s as [|c s IH]; [done|].
  cbn [PyStr.split count_occ].
  destruct (Ascii.eqb_spec c d) as [->|Hne].
  - destruct (ascii_dec d d); [|done]. simpl. by rewrite IH.
  - destruct (ascii_dec c d); [done|]. rewrite <- IH.
    by destruct (PyStr.split d s).
Qed.

(** The parts do not depend on the outer [strip] of the line. *)
Lemma parts_of_split line :
  parts_of line
  = List.map trim (PyStr.split ";" (list_ascii_of_string line)).
Proof.
  unfold parts_of. fold trim.
  change (fun part => PyStr.strip_by PyStr.is_quote
                        (PyStr.strip_by PyStr.is_space part)) with trim.
  generalize (list_ascii_of_string line). intros s.
  destruct (strip_decomp PyStr.is_space s) as (ws1 & ws2 & H1 & H2 & Hs).
  remember (PyStr.strip_by PyStr.is_space s) as core eqn:Hcore_def.
  clear Hcore_def.
  assert (Hsep : ∀ ws, Forall (fun c => PyStr.is_space c = true) ws →
                       Forall (fun c => c ≠ ";"%char) ws).
  { intros ws Hws. eapply Forall_impl; [done|]. simpl. by intros c Hc ->. }
  subst s.
  destruct (split_prefix ";" ws1 (core ++ ws2) (Hsep _ H1))
    as (h & t & Hsplit & ->).
  rewrite (split_suffix ";" core ws2 (Hsep _ H2)) in Hsplit.
  destruct (split_cons_inv ";" core) as (h0 & t0 & Hcore).
  rewrite Hcore in *.
  rewrite (app_removelast_last (l := h0 :: t0) []) at 1 by done.
  assert (Htrim1 : ∀ x, trim (ws1 ++ x) = trim x).
  { intros x. unfold trim. by rewrite strip_prefix. }
  assert (Htrim2 : ∀ x, trim (x ++ ws2) = trim x).
  { intros x. unfold trim. by rewrite strip_suffix. }
  destruct t0 as [|h1 t1].
  - simpl in Hsplit. injection Hsplit as <- <-. simpl.
    by rewrite Htrim1, Htrim2.
  - cbn [removelast] in Hsplit.
    rewrite <- app_comm_cons in Hsplit. injection Hsplit as <- <-.
    cbn [removelast]. rewrite <- app_comm_cons. cbn [List.map].
    rewrite Htrim1. f_equal.
    rewrite !List.map_app. cbn [List.map]. by rewrite Htrim2.
Qed.

Lemma split_join d (parts : list (list ascii)) :
  parts ≠ [] →
  Forall (fun part => Forall (fun c => c ≠ d) part) parts →
  PyStr.split d (PyStr.join d parts) = parts.
Proof.
  intros Hne Hparts. induction Hparts as [|part parts Hpart Hparts IH]; [done|].
  destruct parts as [|part' parts].
  - simpl. by apply split_no_sep.
  - change (PyStr.join d (part :: part' :: parts))
      with (part ++ d :: PyStr.join d (part' :: parts)).
    rewrite split_app_sep by done. by rewrite IH.
Qed.

Lemma join_count d (parts : list (list ascii)) :
  parts ≠ [] →
  S (count_occ ascii_dec (PyStr.join d parts) d)
  = (length parts
     + foldr (fun part n => (count_occ ascii_dec part d + n)%nat) 0%nat parts)%nat.
Proof.
  intros Hne. induction parts as [|part parts IH]; [done|].
  destruct parts as [|part' parts].
  - simpl. lia.
  - change (PyStr.join d (part :: part' :: parts))
      with (part ++ d :: PyStr.join d (part' :: parts)).
    rewrite count_occ_app. cbn [count_occ].
    destruct (ascii_dec d d); [|done].
    specialize (IH ltac:(done)). cbn [foldr length] in *. lia.
Qed.

Lemma parts_of_length (line : string) :
  length (parts_of line) = S (semicolons (list_ascii_of_string line)).
Proof. by rewrite parts_of_split, length_map, split_length. Qed.

Lemma join_row_chars row :
  list_ascii_of_string (join_row row)
  = PyStr.join ";" (List.map list_ascii_of_string row).
Proof. unfold join_row, str. apply list_ascii_of_string_of_list_ascii. Qed.

Lemma parts_of_join_row_length row :
  row ≠ [] →
  length (parts_of (join_row row)) = (length row + inner_semicolons row)%nat.
Proof.
  intros Hne. rewrite parts_of_length, join_row_chars. unfold semicolons.
  rewrite join_count by (by destruct row).
  rewrite length_map. f_equal. unfold inner_semicolons, semicolons.
  clear Hne. induction row as [|f row IH]; [done|]. simpl. by rewrite IH.
Qed.

End parts_facts.

Lemma parts_of_join_row (row : list string) :
  row ≠ [] → inner_semicolons row = 0%nat →
  parts_of (join_row row)
  = List.map (fun field => trim (list_ascii_of_string field)) row.
Proof.
  intros Hne Hsemi.
  rewrite parts_of_split, join_row_chars, split_join, List.map_map;
    [done|by destruct row|].
  clear Hne. induction row as [|f row IH]; [constructor|].
  unfold inner_semicolons in Hsemi. cbn [foldr] in Hsemi.
  fold (inner_semicolons row) in Hsemi.
  cbn [List.map]. constructor; [|apply IH; lia].
  apply Forall_forall. intros c Hc%list_elem_of_In ->.
  assert (semicolons (list_ascii_of_string f) = 0%nat) as H0 by lia.
  by apply (count_occ_not_In ascii_dec) in H0.
Qed.

(** X4. When no field of a csv row holds a semicolon, the parts that
    [parse_log_line] cuts out of the re-joined line are the fields of the
    row, each trimmed of white space and then of quotes; so the event is
    made of the first, second and fourth field and of the [datetime] read
    from the third, and the row is refused exactly when [strptime] refuses
    the third field. *)
Theorem row_fields_reach_parser (l a ts sid : string) (rest : list string) :
  inner_semicolons (l :: a :: ts :: sid :: rest) = 0%nat →
  parts_of (join_row (l :: a :: ts :: sid :: rest))
  = List.map (fun field => trim (list_ascii_of_string field))
             (l :: a :: ts :: sid :: rest)
  ∧ parse_log_line (join_row (l :: a :: ts :: sid :: rest))
    = match strptime (trim (list_ascii_of_string ts)) with
      | Ret d =>
          (Some (mk_event (str (trim (list_ascii_of_string l)))
                          (str (trim (list_ascii_of_string a))) d
                          (str (trim (list_ascii_of_string sid)))), [])
      | Raise e =>
          (None, [mk_warning (join_row (l :: a :: ts :: sid :: rest)) e])
      end.
Proof.
  intros Hsemi.
  pose proof (parts_of_join_row (l :: a :: ts :: sid :: rest)
                ltac:(done) Hsemi) as Hparts.
  split; [done|].
  unfold parse_log_line, parse_log_line_try. rewrite Hparts.
  cbn [List.map length]. simpl (_ <? 4)%nat.
  by destruct (strptime _).
Qed.

Lemma row_fields_reach_parser_witness :
  inner_semicolons [" alice "; "Start"; "2024-01-01 09:00:00"; "s1"; "x"] = 0%nat
  ∧ parse_log_line
      (join_row [" alice "; "Start"; "2024-01-01 09:00:00"; "s1"; "x"])
    = (Some (mk_event "alice" "Start" (Sample.at_hour 9) "s1"), []).
Proof.
  split; [reflexivity|].
  exact (proj2 (row_fields_reach_parser " alice " "Start"
                  "2024-01-01 09:00:00" "s1" ["x"] eq_refl)).
Defined.

(** X5. The line re-joined from a non-empty csv row is cut into as many
    parts as the row has fields plus one for every semicolon inside a
    field: a semicolon in a quoted field moves the later fields one place
    to the right, and a row of four fields or more never gives fewer than
    four parts. *)
Theorem rejoined_row_parts (row : list string) :
  row ≠ [] →
  length (parts_of (join_row row)) = (length row + inner_semicolons row)%nat
  ∧ ((4 ≤ length row)%nat → parse_log_line_try (join_row row) ≠ Ret None).
Proof.
  intros Hne. pose proof (parts_of_join_row_length row Hne) as Hlen.
  split; [done|]. intros H4.
  destruct (parse_log_line_try_cases (join_row row))
    as [[Hshort _]|(l & a & ts & s & rest & _ & ->)]; [lia|].
  by destruct (strptime ts).
Qed.

Lemma rejoined_row_parts_witness :
  ["a;b"; "Start"; "2024-01-01 09:00:00"; "s1"] ≠ []
  ∧ length (parts_of (join_row ["a;b"; "Start"; "2024-01-01 09:00:00"; "s1"]))
    = 5%nat
  ∧ parse_log_line_try
      (join_row ["a;b"; "Start"; "2024-01-01 09:00:00"; "s1"]) ≠ Ret None.
Proof.
  assert (Hne : ["a;b"; "Start"; "2024-01-01 09:00:00"; "s1"] ≠ [])
    by discriminate.
  pose proof (rejoined_row_parts _ Hne) as [Hlen Hparse].
  split; [exact Hne|]. split; [exact Hlen|]. apply Hparse. simpl. lia.
Defined.

(** X6. Every row of four fields or more either gives an event or, in the
    command-line tool, exactly one warning on [sys.stderr] that quotes
    the re-joined line; shorter rows give neither.  The GUI copy never
    writes a warning. *)
Theorem dropped_rows_are_reported (rows : list (list string)) :
  (length (events_of parse_log_line rows)
   + length (warnings_of parse_log_line rows))%nat
  = length (filter (fun row => (4 ≤ length row)%nat) rows)
  ∧ warnings_of Gui.parse_log_line rows = []
  ∧ ∀ w, w ∈ warnings_of parse_log_line rows →
         ∃ row, row ∈ rows ∧ (4 ≤ length row)%nat ∧ w_line w = join_row row.
Proof.
  assert (Hrow : ∀ row, (4 ≤ length row)%nat →
    (∃ ev, parse_log_line (join_row row) = (Some ev, []))
    ∨ parse_log_line (join_row row)
      = (None, [mk_warning (join_row row) ValueError])).
  { intros row H4. unfold parse_log_line.
    destruct (parse_log_line_try_cases (join_row row))
      as [[Hshort _]|(l & a & ts & s & rest & _ & ->)].
    - rewrite parts_of_join_row_length in Hshort
        by (intros ->; simpl in H4; lia).
      lia.
    - destruct (strptime ts) as [d|[]]; [left; by eexists|by right]. }
  split_and!.
  - induction rows as [|row rows IH]; [done|].
    rewrite filter_cons. unfold events_of, warnings_of, event_of_row in *.
    cbn [omap list_omap flat_map].
    destruct (Nat.ltb_spec (length row) 4) as [Hlt|Hge].
    + rewrite decide_False by lia. apply IH.
    + rewrite decide_True by lia.
      destruct (Hrow row Hge) as [[ev ->]| ->]; cbn [fst snd length app];
        rewrite ?length_app; cbn [length]; lia.
  - induction rows as [|row rows IH]; [done|].
    unfold warnings_of in *. cbn [flat_map]. rewrite IH.
    destruct (length row <? 4)%nat; [done|].
    unfold Gui.parse_log_line. by destruct (parse_log_line_try _).
  - induction rows as [|row rows IH]; [by intros w ?%elem_of_nil|].
    intros w. unfold warnings_of in *. cbn [flat_map]. rewrite elem_of_app.
    intros [Hw|Hw].
    + exists row. destruct (Nat.ltb_spec (length row) 4) as [Hlt|Hge];
        [by apply elem_of_nil in Hw|].
      split; [by left|]. split; [done|].
      destruct (Hrow row Hge) as [[ev Hp]|Hp]; rewrite Hp in Hw.
      * by apply elem_of_nil in Hw.
      * by apply list_elem_of_singleton in Hw as ->.
    + destruct (IH w Hw) as (row' & Hin & H4 & Hl).
      exists row'. split; [by right|done].
Qed.

(* ===================================================================== *)
(** ** Further properties of the pass *)
(* ===================================================================== *)

Section more_pass_facts.
Implicit Types (st : state) (ev : event) (target : option string).

Lemma gui_warnings_nil rows : warnings_of Gui.parse_log_line rows = [].
Proof.
  induction rows as [|row rows IH]; [done|].
  unfold warnings_of in *. cbn [flat_map]. rewrite IH.
  destruct (length row <? 4)%nat; [done|].
  unfold Gui.parse_log_line. by destruct (parse_log_line_try _).
Qed.



Lemma process_events_session_actions target st evs :
  process_events target st evs
  = process_events target st
      (filter (fun e => action e = "Start" ∨ action e = "Stop") evs).
Proof.
  revert st. induction evs as [|ev evs IH]; intros st; [done|].
  rewrite filter_cons, process_events_cons.
  destruct (decide (action ev = "Start" ∨ action ev = "Stop")) as [Ha|Ha].
  - by rewrite process_events_cons, IH.
  - rewrite <- IH. f_equal. unfold process_event.
    destruct (filtered_out _ _); [done|].
    apply transition_other; tauto.
Qed.

Lemma length_set {V : Type} k (v : V) d :
  (length (Dict.set k v d) ≤ S (length d))%nat.
Proof.
  induction d as [|[k' v'] d IH]; simpl; [lia|].
  destruct (decide (k = k')); simpl; lia.
Qed.

Lemma length_del {V : Type} k (d : list (string * V)) :
  (length (Dict.del k d) ≤ length d)%nat.
Proof.
  induction d as [|[k' v'] d IH]; simpl; [lia|].
  destruct (decide (k = k')); simpl; lia.
Qed.

Lemma process_events_sizes target st evs :
  (length (missing_start_logs (process_events target st evs))
   ≤ length (missing_start_logs st) + length (with_action "Stop" evs))%nat
  ∧ (length (start_times (process_events target st evs))
     ≤ length (start_times st) + length (with_action "Start" evs))%nat.
Proof.
  revert st. induction evs as [|ev evs IH]; intros st; [simpl; lia|].
  rewrite process_events_cons. destruct (IH (process_event target st ev))
    as [IH1 IH2]. clear IH.
  unfold with_action in *. rewrite !filter_cons.
  assert (Hstep :
    (length (missing_start_logs (process_event target st ev))
     ≤ length (missing_start_logs st)
       + (if decide (action ev = "Stop") then 1 else 0))%nat
    ∧ (length (start_times (process_event target st ev))
       ≤ length (start_times st)
         + (if decide (action ev = "Start") then 1 else 0))%nat).
  { unfold process_event. destruct (filtered_out _ _); [lia|].
    destruct (action_cases ev) as [Ha|[Ha|[Ha1 Ha2]]].
    - rewrite transition_start by done. simpl.
      rewrite (decide_True (P := action ev = "Start")) by done.
      pose proof (length_set (session_id ev) (login ev, timestamp ev)
                    (start_times st)). lia.
    - rewrite transition_stop by done.
      rewrite (decide_True (P := action ev = "Stop")) by done.
      destruct (Dict.get _ _) as [[l0 t0]|].
      + destruct (decide (l0 = login ev)); simpl; rewrite ?length_app; simpl.
        * pose proof (length_del (session_id ev) (start_times st)). lia.
        * lia.
      + simpl. rewrite length_app. simpl. lia.
    - rewrite transition_other by done. lia. }
  destruct Hstep as [H1 H2].
  destruct (decide (action ev = "Stop")), (decide (action ev = "Start"));
    simpl in *; lia.
Qed.




Lemma stems_from_step target evs st ev :
  ev ∈ evs → stems_from evs st → stems_from evs (process_event target st ev).
Proof.
  intros Hev [Htab Htot]. unfold process_event.
  destruct (filtered_out _ _); [done|].
  destruct (action_cases ev) as [Ha|[Ha|[Ha1 Ha2]]].
  - rewrite transition_start by done. split; [|done]. cbn [start_times].
    intros sid l t0. destruct (decide (session_id ev = sid)) as [<-|Hne].
    + rewrite get_set_eq. intros [= <- <-]. destruct ev; simpl in *. by subst.
    + rewrite get_set_ne by done. apply Htab.
  - rewrite transition_stop by done.
    destruct (Dict.get _ _) as [[l0 t0]|] eqn:Hg; [|done].
    destruct (decide (l0 = login ev)) as [->|]; [|done].
    split; cbn [start_times total_time].
    + intros sid l t1. destruct (decide (session_id ev = sid)) as [<-|Hne].
      * by rewrite get_del_eq.
      * rewrite get_del_ne by done. apply Htab.
    + intros l. unfold add_total.
      destruct (decide (login ev = l)) as [<-|Hne].
      * intros _. exists (mk_event (login ev) "Start" t0 (session_id ev)), ev.
        split_and!; try done. by apply Htab.
      * rewrite lookup_insert_ne by done. apply Htot.
  - by rewrite transition_other.
Qed.

Lemma stems_from_run target evs st evs' :
  (∀ e, e ∈ evs' → e ∈ evs) →
  stems_from evs st → stems_from evs (process_events target st evs').
Proof.
  revert st. induction evs' as [|ev evs' IH]; intros st Hsub Hst; [done|].
  rewrite process_events_cons. apply IH.
  - intros e He. apply Hsub. by right.
  - apply stems_from_step; [|done]. apply Hsub. by left.
Qed.

End more_pass_facts.

(** X7. Events whose action is neither exactly [Start] nor exactly [Stop]
    (for instance [start] in lower case) have no effect: the result is
    that of the log without them. *)
Theorem other_actions_ignored (target : option string) (evs : list event) :
  aggregate target evs
  = aggregate target
      (filter (fun e => action e = "Start" ∨ action e = "Stop") evs).
Proof.
  unfold aggregate. by rewrite <- process_events_session_actions.
Qed.

(** X8. The pass reports at most one diagnostic per event: no more [Stop]
    diagnostics than the log has [Stop] events, and no more "Start without
    Stop" diagnostics than it has [Start] events. *)
Theorem diagnostics_bounded_by_events (target : option string)
  (evs : list event) :
  (length (filter (fun d => stop_diagnostic d = true) (aggregate target evs).2)
   ≤ length (with_action "Stop" evs))%nat
  ∧ (length (filter (fun d => stop_diagnostic d = false)
               (aggregate target evs).2)
     ≤ length (with_action "Start" evs))%nat.
Proof.
  unfold aggregate, result_of. cbn [snd].
  set (st := process_events target initial evs).
  destruct (pass_invariant_run target initial evs (pass_invariant_initial _))
    as (_ & Hdiag & _). fold st in Hdiag.
  destruct (process_events_sizes target initial evs) as [H1 H2].
  fold st in H1, H2. simpl in H1, H2.
  rewrite !filter_app, !length_app, unterminated_filter.
  set (open := filter _ (start_times st)).
  assert (Hopen : (length open ≤ length (start_times st))%nat)
    by apply length_filter.
  assert (Hun1 : filter (fun d => stop_diagnostic d = true)
                   (List.map unterminated_entry open) = []).
  { clear Hopen. clearbody open. induction open as [|e open IH]; [done|].
    cbn [List.map].
    rewrite filter_cons_False by (by destruct e as [? [? ?]]). apply IH. }
  assert (Hun2 : (length (filter (fun d => stop_diagnostic d = false)
                            (List.map unterminated_entry open))
                  ≤ length open)%nat).
  { etrans; [apply length_filter|]. by rewrite length_map. }
  assert (Hm1 : (length (filter (fun d => stop_diagnostic d = true)
                           (missing_start_logs st))
                 ≤ length (missing_start_logs st))%nat)
    by apply length_filter.
  assert (Hm2 : filter (fun d => stop_diagnostic d = false)
                  (missing_start_logs st) = []).
  { clear -Hdiag. induction Hdiag as [|d ds Hd _ IH]; [done|].
    rewrite filter_cons_False by (by rewrite Hd). apply IH. }
  rewrite Hun1, Hm2. simpl. lia.
Qed.

(** X9. A login has a key in the returned totals only if the log holds a
    [Start] and a [Stop] of that login on one session id. *)
Theorem totals_key_has_pair (target : option string) (evs : list event)
  (l : string) :
  is_Some ((aggregate target evs).1 !! l) →
  ∃ e0 e1, e0 ∈ evs ∧ e1 ∈ evs
           ∧ action e0 = "Start" ∧ action e1 = "Stop"
           ∧ login e0 = l ∧ login e1 = l
           ∧ session_id e0 = session_id e1.
Proof.
  unfold aggregate, result_of. cbn [fst].
  apply (stems_from_run target evs initial evs); [done|].
  split; simpl; [done|]. intros l' [x Hx]. by rewrite lookup_empty in Hx.
Qed.

Lemma totals_key_has_pair_witness :
  is_Some
    ((aggregate None [Sample.alice_start_9; Sample.alice_stop_17]).1 !! "alice")
  ∧ ∃ e0 e1,
      e0 ∈ [Sample.alice_start_9; Sample.alice_stop_17]
      ∧ e1 ∈ [Sample.alice_start_9; Sample.alice_stop_17]
      ∧ action e0 = "Start" ∧ action e1 = "Stop"
      ∧ login e0 = "alice" ∧ login e1 = "alice"
      ∧ session_id e0 = session_id e1.
Proof.
  assert (H : is_Some
    ((aggregate None [Sample.alice_start_9; Sample.alice_stop_17]).1
       !! "alice")).
  { exists 28800. reflexivity. }
  split; [exact H|].
  exact (totals_key_has_pair None
           [Sample.alice_start_9; Sample.alice_stop_17] "alice" H).
Defined.




(** X11. The copy of [calculate_work_time] in the GUI file returns the
    same pair as the one of the command-line tool; the two differ only in
    what reaches [sys.stderr]: nothing in the GUI, the parser's warnings
    in the command-line tool. *)
Theorem gui_differs_only_on_stderr (rows : list (list string))
  (target : option string) :
  gui_calculate_work_time rows target = calculate_work_time rows target
  ∧ stderr (process_rows Gui.parse_log_line target initial rows) = []
  ∧ stderr (process_rows parse_log_line target initial rows)
    = warnings_of parse_log_line rows.
Proof.
  split; [apply gui_calculate_work_time_same|].
  rewrite !process_rows_events. simpl. by rewrite gui_warnings_nil.
Qed.

(** X12. An empty string as target login is no filter at all: the result
    is the one for every login. *)
Theorem empty_target_is_no_filter (rows : list (list string)) :
  calculate_work_time rows (Some "") = calculate_work_time rows None.
Proof.
  rewrite !calculate_work_time_events. unfold aggregate, result_of.
  by rewrite process_events_unfiltered.
Qed.

(* ===================================================================== *)
(** ** Writing a [datetime] and reading it back *)
(* ===================================================================== *)

Section datetime_str_facts.
Import PyFormat.

Lemma digits_fuel_enough f1 f2 n :
  0 ≤ n < 2 ^ Z.of_nat f1 → n < 2 ^ Z.of_nat f2 →
  (0 < f1)%nat → (0 < f2)%nat →
  digits_fuel f1 n = digits_fuel f2 n.
Proof.
  revert f2 n. induction f1 as [|f1 IH]; intros f2 n Hn1 Hn2 Hf1 Hf2; [lia|].
  destruct f2 as [|f2]; [lia|]. cbn [digits_fuel].
  destruct (Z.ltb_spec n 10) as [Hlt|Hge]; [done|].
  rewrite Nat2Z.inj_succ, Z.pow_succ_r in Hn1, Hn2 by lia.
  assert (Hq : 1 ≤ n / 10) by (apply Z.div_le_lower_bound; lia).
  assert (Hq1 : n / 10 < 2 ^ Z.of_nat f1) by (apply Z.div_lt_upper_bound; lia).
  assert (Hq2 : n / 10 < 2 ^ Z.of_nat f2) by (apply Z.div_lt_upper_bound; lia).
  f_equal. apply IH; try lia.
  - destruct f1; [change (2 ^ Z.of_nat 0) with 1 in Hq1|]; lia.
  - destruct f2; [change (2 ^ Z.of_nat 0) with 1 in Hq2|]; lia.
Qed.

Lemma digits_unfold n :
  0 ≤ n →
  digits n = if n <? 10 then [digit_char n]
             else digits (n / 10) ++ [digit_char (n mod 10)].
Proof.
  intros Hn. unfold digits at 1. cbn [digits_fuel].
  destruct (Z.ltb_spec n 10) as [Hlt|Hge]; [done|].
  f_equal. unfold digits.
  assert (Hq : 1 ≤ n / 10) by (apply Z.div_le_lower_bound; lia).
  pose proof (enough_fuel n Hn) as Hf.
  rewrite Nat2Z.inj_succ, Z.pow_succ_r in Hf by lia.
  assert (Hlog : 0 < Z.log2 n) by (apply Z.log2_pos; lia).
  apply digits_fuel_enough; try lia.
  - split; [lia|]. apply Z.div_lt_upper_bound; lia.
  - apply enough_fuel. lia.
Qed.

Lemma digits_one v : 0 ≤ v < 10 → digits v = [digit_char v].
Proof.
  intros Hv. rewrite digits_unfold by lia.
  by destruct (Z.ltb_spec v 10); [|lia].
Qed.

Lemma digits_two v :
  10 ≤ v < 100 → digits v = [digit_char (v / 10); digit_char (v mod 10)].
Proof.
  intros Hv. rewrite digits_unfold by lia.
  destruct (Z.ltb_spec v 10); [lia|].
  rewrite digits_one; [done|].
  split; [apply Z.div_pos; lia|apply Z.div_lt_upper_bound; lia].
Qed.

Lemma format_02d_two v :
  0 ≤ v < 100 → format_02d v = [digit_char (v / 10); digit_char (v mod 10)].
Proof.
  intros Hv. unfold format_02d.
  destruct (Z.ltb_spec v 0); [lia|].
  destruct (Z.ltb_spec v 10).
  - rewrite digits_one by lia.
    rewrite Z.div_small, Z.mod_small by lia. reflexivity.
  - apply digits_two; lia.
Qed.

Lemma format_04d_four y :
  0 ≤ y < 10000 →
  format_04d y
  = [digit_char (y / 1000); digit_char (y / 100 mod 10);
     digit_char (y / 10 mod 10); digit_char (y mod 10)].
Proof.
  intros Hy. unfold format_04d.
  assert (Hdm : ∀ a b, 0 < b → a = b * (a / b) + a mod b ∧ 0 ≤ a mod b < b).
  { intros a b Hb. split; [by apply Z.div_mod; lia|by apply Z.mod_pos_bound]. }
  pose proof (Hdm y 10 ltac:(lia)) as [E1 B1].
  pose proof (Hdm (y / 10) 10 ltac:(lia)) as [E2 B2].
  pose proof (Hdm (y / 10 / 10) 10 ltac:(lia)) as [E3 B3].
  assert (H100 : y / 100 = y / 10 / 10) by (by rewrite Z.div_div by lia).
  assert (H1000 : y / 1000 = y / 10 / 10 / 10) by (by rewrite !Z.div_div by lia).
  rewrite H100, H1000.
  destruct (Z.ltb_spec y 10) as [Hlt|Hge].
  { rewrite digits_one by lia. simpl.
    assert (y / 10 = 0) as -> by (apply Z.div_small; lia).
    change (0 / 10) with 0. change (0 mod 10) with 0.
    by rewrite (Z.mod_small y 10) by lia. }
  rewrite digits_unfold by lia.
  destruct (Z.ltb_spec y 10); [lia|].
  assert (1 ≤ y / 10 < 1000).
  { split; [apply Z.div_le_lower_bound; lia|apply Z.div_lt_upper_bound; lia]. }
  destruct (Z.ltb_spec (y / 10) 10) as [Hlt1|Hge1].
  { rewrite digits_one by lia. simpl.
    assert (y / 10 / 10 = 0) as -> by (apply Z.div_small; lia).
    change (0 / 10) with 0. change (0 mod 10) with 0.
    by rewrite (Z.mod_small (y / 10) 10) by lia. }
  rewrite (digits_unfold (y / 10)) by lia.
  destruct (Z.ltb_spec (y / 10) 10); [lia|].
  assert (1 ≤ y / 10 / 10 < 100).
  { split; [apply Z.div_le_lower_bound; lia|apply Z.div_lt_upper_bound; lia]. }
  destruct (Z.ltb_spec (y / 10 / 10) 10) as [Hlt2|Hge2].
  { rewrite digits_one by lia. simpl.
    assert (y / 10 / 10 / 10 = 0) as -> by (apply Z.div_small; lia).
    by rewrite (Z.mod_small (y / 10 / 10) 10) by lia. }
  rewrite digits_two by lia. simpl.
  assert (0 ≤ y / 10 / 10 / 10 < 10).
  { split; [apply Z.div_pos; lia|apply Z.div_lt_upper_bound; lia]. }
  done.
Qed.

End datetime_str_facts.

Section strptime_round_trip.
Import PyFormat.

Lemma below_cases (P : Z → Prop) (n : nat) :
  (∀ k : nat, (k < n)%nat → P (Z.of_nat k)) → ∀ v, 0 ≤ v < Z.of_nat n → P v.
Proof. intros H v Hv. rewrite <- (Z2Nat.id v) by lia. apply H. lia. Qed.

Lemma digit_char_plain (v : Z) :
  0 ≤ v ≤ 9 →
  PyStr.is_space (digit_char v) = false
  ∧ PyStr.is_quote (digit_char v) = false
  ∧ digit_char v ≠ ";"%char.
Proof.
  intros Hv. pattern v. apply (below_cases _ 10); [|lia].
  intros k Hk. do 10 (destruct k as [|k]; [by vm_compute|]). lia.
Qed.

Lemma head_seq {A B C : Type} (f : A → B → C)
  (p : Regex.matcher A) (q : Regex.matcher B) s a s1 b s2 :
  head (p s) = Some (a, s1) → head (q s1) = Some (b, s2) →
  head (Regex.seq f p q s) = Some (f a b, s2).
Proof.
  unfold Regex.seq. intros Hp Hq.
  destruct (p s) as [|[a' s1'] r1]; [done|]. injection Hp as -> ->.
  cbn [flat_map]. destruct (q s1) as [|[b' s2'] r2]; [done|].
  by injection Hq as -> ->.
Qed.

Lemma re_Y_reads a b c e s :
  0 ≤ a ≤ 9 → 0 ≤ b ≤ 9 → 0 ≤ c ≤ 9 → 0 ≤ e ≤ 9 →
  head (Regex.re_Y (digit_char a :: digit_char b :: digit_char c
                    :: digit_char e :: s))
  = Some (1000 * a + 100 * b + 10 * c + e, s).
Proof.
  intros Ha Hb Hc He.
  assert (Hd : ∀ v t, 0 ≤ v ≤ 9 →
                      Regex.digit_in 0 9 (digit_char v :: t) = [(v, t)]).
  { intros v t Hv. unfold Regex.digit_in.
    destruct (digit_char_spec v Hv) as [-> ->].
    by destruct (Z.leb_spec 0 v), (Z.leb_spec v 9); try lia. }
  assert (Htwo : ∀ x y t, 0 ≤ x ≤ 9 → 0 ≤ y ≤ 9 →
    head (Regex.two 0 9 0 9 (digit_char x :: digit_char y :: t))
    = Some (10 * x + y, t)).
  { intros x y t Hx Hy. unfold Regex.two.
    apply (head_seq (fun a b => 10 * a + b) _ _ _ x (digit_char y :: t) y t);
      by rewrite Hd. }
  unfold Regex.re_Y.
  replace (1000 * a + 100 * b + 10 * c + e)
    with (100 * (10 * a + b) + (10 * c + e)) by lia.
  apply (head_seq (fun a b => 100 * a + b) _ _ _
           (10 * a + b) (digit_char c :: digit_char e :: s) (10 * c + e) s);
    by apply Htwo.
Qed.

Local Tactic Notation "field_cases" integer(n) :=
  let k := fresh "k" in let Hk := fresh "Hk" in let Hv := fresh "Hv" in
  let s := fresh "s" in
  intros k Hk Hv s;
  do n (destruct k as [|k];
        [first [by vm_compute | exfalso; simpl in Hv; lia]|]);
  lia.

Lemma re_m_reads v s :
  1 ≤ v ≤ 12 →
  head (Regex.re_m (digit_char (v / 10) :: digit_char (v mod 10) :: s))
  = Some (v, s).
Proof.
  intros Hv. pose proof Hv as Hv'. revert s. revert Hv'.
  pattern v. apply (below_cases _ 13); [|lia].
  field_cases 13.
Qed.

Lemma re_d_reads v s :
  1 ≤ v ≤ 31 →
  head (Regex.re_d (digit_char (v / 10) :: digit_char (v mod 10) :: s))
  = Some (v, s).
Proof.
  intros Hv. pose proof Hv as Hv'. revert s. revert Hv'.
  pattern v. apply (below_cases _ 32); [|lia].
  field_cases 32.
Qed.

Lemma re_H_reads v s :
  0 ≤ v ≤ 23 →
  head (Regex.re_H (digit_char (v / 10) :: digit_char (v mod 10) :: s))
  = Some (v, s).
Proof.
  intros Hv. pose proof Hv as Hv'. revert s. revert Hv'.
  pattern v. apply (below_cases _ 24); [|lia].
  field_cases 24.
Qed.

Lemma re_M_reads v s :
  0 ≤ v ≤ 59 →
  head (Regex.re_M (digit_char (v / 10) :: digit_char (v mod 10) :: s))
  = Some (v, s).
Proof.
  intros Hv. pose proof Hv as Hv'. revert s. revert Hv'.
  pattern v. apply (below_cases _ 60); [|lia].
  field_cases 60.
Qed.

Lemma re_S_reads v s :
  0 ≤ v ≤ 59 →
  head (Regex.re_S (digit_char (v / 10) :: digit_char (v mod 10) :: s))
  = Some (v, s).
Proof.
  intros Hv. pose proof Hv as Hv'. revert s. revert Hv'.
  pattern v. apply (below_cases _ 60); [|lia].
  field_cases 60.
Qed.

End strptime_round_trip.

Section written_lines.
Import PyFormat.

Lemma valid_ranges d :
  PyDatetime.valid d = true →
  1 ≤ dt_year d ≤ 9999 ∧ 1 ≤ dt_month d ≤ 12 ∧ 1 ≤ dt_day d ≤ 31
  ∧ 0 ≤ dt_hour d ≤ 23 ∧ 0 ≤ dt_minute d ≤ 59 ∧ 0 ≤ dt_second d ≤ 59.
Proof.
  unfold PyDatetime.valid. rewrite !andb_true_iff, !Z.leb_le.
  intros Hv.
  assert (PyDatetime.days_in_month (dt_year d) (dt_month d) ≤ 31).
  { unfold PyDatetime.days_in_month.
    destruct (dt_month d =? 2); [by destruct (PyDatetime.is_leap _)|].
    by destruct (_ || _). }
  lia.
Qed.

(** The nineteen characters of [str(d)]. *)
Lemma datetime_str_chars d :
  PyDatetime.valid d = true →
  datetime_str d
  = [digit_char (dt_year d / 1000); digit_char (dt_year d / 100 mod 10);
     digit_char (dt_year d / 10 mod 10); digit_char (dt_year d mod 10);
     "-"%char;
     digit_char (dt_month d / 10); digit_char (dt_month d mod 10); "-"%char;
     digit_char (dt_day d / 10); digit_char (dt_day d mod 10); " "%char;
     digit_char (dt_hour d / 10); digit_char (dt_hour d mod 10); ":"%char;
     digit_char (dt_minute d / 10); digit_char (dt_minute d mod 10); ":"%char;
     digit_char (dt_second d / 10); digit_char (dt_second d mod 10)].
Proof.
  intros (Hy & Hm & Hd & Hh & Hmi & Hs)%valid_ranges. unfold datetime_str.
  rewrite format_04d_four, !format_02d_two by lia. done.
Qed.

Lemma digit_bounds v n :
  0 ≤ v < 10 * n → 0 < n → 0 ≤ v / 10 < n ∧ 0 ≤ v mod 10 ≤ 9.
Proof.
  intros Hv Hn. pose proof (Z.mod_pos_bound v 10).
  split; [|lia]. split; [apply Z.div_pos; lia|].
  apply Z.div_lt_upper_bound; lia.
Qed.

Lemma date_format_reads d :
  PyDatetime.valid d = true →
  head (Regex.date_format (datetime_str d)) = Some (d, []).
Proof.
  intros Hvalid. rewrite datetime_str_chars by done.
  apply valid_ranges in Hvalid as (Hy & Hm & Hd & Hh & Hmi & Hs).
  destruct d as [y m dd h mi s]. cbn [dt_year dt_month dt_day dt_hour
    dt_minute dt_second] in *.
  assert (Hyear : 1000 * (y / 1000) + 100 * (y / 100 mod 10)
                  + 10 * (y / 10 mod 10) + y mod 10 = y).
  { pose proof (Z.div_mod y 10). pose proof (Z.div_mod (y / 10) 10).
    pose proof (Z.div_mod (y / 10 / 10) 10).
    replace (y / 100) with (y / 10 / 10) by (by rewrite Z.div_div by lia).
    replace (y / 1000) with (y / 10 / 10 / 10) by (by rewrite !Z.div_div by lia).
    lia. }
  assert (Hy4 : 0 ≤ y / 1000 ≤ 9 ∧ 0 ≤ y / 100 mod 10 ≤ 9
                ∧ 0 ≤ y / 10 mod 10 ≤ 9 ∧ 0 ≤ y mod 10 ≤ 9).
  { pose proof (Z.mod_pos_bound y 10). pose proof (Z.mod_pos_bound (y / 10) 10).
    pose proof (Z.mod_pos_bound (y / 100) 10).
    assert (0 ≤ y / 1000 < 10)
      by (split; [apply Z.div_pos; lia|apply Z.div_lt_upper_bound; lia]).
    lia. }
  destruct Hy4 as (Hy1 & Hy2 & Hy3 & Hy0).
  destruct (digit_bounds h 3) as [Hh1 Hh0]; [lia|lia|].
  assert (Hex : ∃ v, head (Regex.date_format
      [digit_char (y / 1000); digit_char (y / 100 mod 10);
       digit_char (y / 10 mod 10); digit_char (y mod 10); "-"%char;
       digit_char (m / 10); digit_char (m mod 10); "-"%char;
       digit_char (dd / 10); digit_char (dd mod 10); " "%char;
       digit_char (h / 10); digit_char (h mod 10); ":"%char;
       digit_char (mi / 10); digit_char (mi mod 10); ":"%char;
       digit_char (s / 10); digit_char (s mod 10)]) = Some (v, [])
    ∧ v = mk_datetime y m dd h mi s).
  { eexists. split.
    - unfold Regex.date_format, Regex.skip.
      eapply (head_seq (fun y k => k y)); [by apply re_Y_reads|].
      eapply (head_seq (fun _ b => b)); [reflexivity|].
      eapply (head_seq (fun m k y => k y m)); [by apply re_m_reads|].
      eapply (head_seq (fun _ b => b)); [reflexivity|].
      eapply (head_seq (fun d k y m => k y m d)); [by apply re_d_reads|].
      eapply (head_seq (fun _ b => b)).
      { cbn [Regex.spaces1].
        change (PyStr.is_space " "%char) with true. cbn iota.
        destruct (digit_char_plain (h / 10)) as (-> & _); [lia|]. reflexivity. }
      eapply (head_seq (fun h k y m d => k y m d h)); [by apply re_H_reads|].
      eapply (head_seq (fun _ b => b)); [reflexivity|].
      eapply (head_seq (fun mi k y m d h => k y m d h mi));
        [by apply re_M_reads|].
      eapply (head_seq (fun _ b => b)); [reflexivity|].
      eapply (head_seq
                (fun s (_ : unit) y m d h mi => mk_datetime y m d h mi s));
        [by apply re_S_reads|reflexivity].
    - cbn beta. by rewrite Hyear. }
  by destruct Hex as (v & -> & ->).
Qed.

End written_lines.

Section written_events.
Import PyFormat.

Lemma strip_fixed p c0 mid c1 :
  p c0 = false → p c1 = false →
  PyStr.strip_by p (c0 :: mid ++ [c1]) = c0 :: mid ++ [c1].
Proof.
  intros H0 H1. unfold PyStr.strip_by, PyStr.rstrip_by.
  cbn [PyStr.lstrip_by]. rewrite H0.
  change (c0 :: mid ++ [c1]) with ((c0 :: mid) ++ [c1]).
  rewrite rev_app_distr. cbn [rev app PyStr.lstrip_by]. rewrite H1.
  change (c1 :: rev mid ++ [c0]) with ([c1] ++ rev (c0 :: mid)).
  by rewrite rev_app_distr, rev_involutive.
Qed.

Local Ltac digit_bound :=
  match goal with
  | |- 0 ≤ ?x mod 10 ≤ 9 => pose proof (Z.mod_pos_bound x 10); lia
  | |- 0 ≤ ?x / ?k ≤ 9 =>
      split; [apply Z.div_pos; lia
             |apply Z.lt_succ_r, Z.div_lt_upper_bound; lia]
  end.

Lemma datetime_str_plain d :
  PyDatetime.valid d = true →
  trim (datetime_str d) = datetime_str d ∧ semicolons (datetime_str d) = 0%nat.
Proof.
  intros Hvalid. rewrite datetime_str_chars by done.
  apply valid_ranges in Hvalid as (Hy & Hm & Hd & Hh & Hmi & Hs).
  assert (Hplain : ∀ v, 0 ≤ v ≤ 9 →
            PyStr.is_space (digit_char v) = false
            ∧ PyStr.is_quote (digit_char v) = false
            ∧ digit_char v ≠ ";"%char) by apply digit_char_plain.
  split.
  - unfold trim.
    match goal with
    | |- context [PyStr.strip_by PyStr.is_space (?c0 :: ?l)] =>
        change (c0 :: l) with (c0 :: removelast l ++ [List.last l c0])
    end.
    cbn [removelast List.last].
    rewrite !strip_fixed; [done|..]; apply Hplain; digit_bound.
  - apply count_occ_not_In.
    intros Hin%list_elem_of_In.
    repeat (apply elem_of_cons in Hin as [Hin|Hin];
            [first [discriminate Hin
                   |symmetry in Hin; revert Hin; apply Hplain; digit_bound]|]).
    by apply elem_of_nil in Hin.
Qed.

End written_events.

(** X13. The text that [str] gives for a timestamp, which is what the
    diagnostics show, is read back by [strptime] under [DATE_FORMAT] as
    the same [datetime]. *)
Theorem strptime_reads_datetime_str (d : datetime) :
  PyDatetime.valid d = true → strptime (datetime_str d) = Ret d.
Proof.
  intros Hvalid. unfold strptime.
  pose proof (date_format_reads d Hvalid) as Hhead.
  destruct (Regex.date_format (datetime_str d)) as [|[d' r] ms]; [done|].
  injection Hhead as -> ->. by rewrite Hvalid.
Qed.

Lemma strptime_reads_datetime_str_witness :
  PyDatetime.valid (mk_datetime 2024 2 29 23 59 59) = true
  ∧ strptime (datetime_str (mk_datetime 2024 2 29 23 59 59))
    = Ret (mk_datetime 2024 2 29 23 59 59).
Proof.
  split; [reflexivity|].
  exact (strptime_reads_datetime_str (mk_datetime 2024 2 29 23 59 59) eq_refl).
Defined.

(** X14. Writing an event as a log line and parsing that line gives the
    event back, without a warning, when its timestamp is a valid
    [datetime] and its login, action and session id hold no semicolon and
    neither begin nor end with white space or a quote. *)
Theorem written_line_reads_back (ev : event) :
  PyDatetime.valid (timestamp ev) = true →
  plain_field (login ev) → plain_field (action ev) →
  plain_field (session_id ev) →
  parse_log_line (line_of_event ev) = (Some ev, []).
Proof.
  intros Hvalid [Hl1 Hl2] [Ha1 Ha2] [Hs1 Hs2].
  destruct (datetime_str_plain _ Hvalid) as [Ht1 Ht2].
  assert (Hts : strptime (datetime_str (timestamp ev)) = Ret (timestamp ev)).
  { unfold strptime. pose proof (date_format_reads _ Hvalid) as Hhead.
    destruct (Regex.date_format _) as [|[d' r] ms]; [done|].
    injection Hhead as -> ->. by rewrite Hvalid. }
  unfold line_of_event, parse_log_line, parse_log_line_try.
  rewrite parts_of_join_row; [|done|].
  - cbn [List.map length]. simpl (_ <? 4)%nat. cbn iota.
    unfold str at 2. rewrite list_ascii_of_string_of_list_ascii.
    rewrite Hl1, Ha1, Hs1, Ht1, Hts.
    simpl. unfold str. rewrite !string_of_list_ascii_of_string.
    by destruct ev.
  - unfold inner_semicolons. cbn [foldr].
    unfold str. rewrite list_ascii_of_string_of_list_ascii. lia.
Qed.

(* ===================================================================== *)
(** ** The filter on logs with unshared session ids *)
(* ===================================================================== *)

Section projection_facts.
Implicit Types (d : list (string * (string * datetime))) (k t o : string).

Lemma filter_set_other t k o ts d :
  o ≠ t →
  Forall (fun entry => entry.1 = k → entry.2.1 = o) d →
  filter (fun entry => entry.2.1 = t) (Dict.set k (o, ts) d)
  = filter (fun entry => entry.2.1 = t) d.
Proof.
  intros Hne. induction 1 as [|[k' [l' t']] d Hown _ IH]; cbn [Dict.set].
  - by rewrite filter_cons_False.
  - destruct (decide (k = k')) as [<-|Hk].
    + rewrite !filter_cons_False; [done| |done].
      simpl in *. rewrite Hown; done.
    + rewrite !filter_cons, IH. done.
Qed.

Lemma filter_set_own t k ts d :
  Forall (fun entry => entry.1 = k → entry.2.1 = t) d →
  filter (fun entry => entry.2.1 = t) (Dict.set k (t, ts) d)
  = Dict.set k (t, ts) (filter (fun entry => entry.2.1 = t) d).
Proof.
  induction 1 as [|[k' [l' t']] d Hown _ IH]; cbn [Dict.set].
  - by rewrite filter_cons_True.
  - destruct (decide (k = k')) as [<-|Hk].
    + simpl in Hown. rewrite (Hown eq_refl).
      rewrite !filter_cons_True by done. cbn [Dict.set].
      by rewrite decide_True.
    + rewrite !filter_cons, IH. cbn [snd fst].
      destruct (decide (l' = t)); [|done].
      cbn [Dict.set]. by rewrite decide_False.
Qed.

Lemma filter_del t k d :
  filter (fun entry => entry.2.1 = t) (Dict.del k d)
  = Dict.del k (filter (fun entry => entry.2.1 = t) d).
Proof.
  induction d as [|[k' [l' t']] d IH]; [done|]. cbn [Dict.del].
  destruct (decide (k = k')) as [<-|Hk].
  - rewrite filter_cons. cbn [fst snd].
    destruct (decide (l' = t)); [|done]. cbn [Dict.del].
    by rewrite decide_True.
  - rewrite !filter_cons, IH. cbn [fst snd].
    destruct (decide (l' = t)); [|done]. cbn [Dict.del].
    by rewrite decide_False.
Qed.

Lemma get_filter_own t k d :
  Forall (fun entry => entry.1 = k → entry.2.1 = t) d →
  Dict.get k (filter (fun entry => entry.2.1 = t) d) = Dict.get k d.
Proof.
  induction 1 as [|[k' [l' t']] d Hown _ IH]; [done|]. cbn [Dict.get].
  rewrite filter_cons. cbn [fst snd] in *.
  destruct (decide (k = k')) as [<-|Hk].
  - rewrite (Hown eq_refl), decide_True by done. cbn [Dict.get].
    by rewrite decide_True.
  - destruct (decide (l' = t)); [|done]. cbn [Dict.get].
    by rewrite decide_False.
Qed.

Lemma get_filter_other t k o d :
  o ≠ t →
  Forall (fun entry => entry.1 = k → entry.2.1 = o) d →
  Dict.get k (filter (fun entry => entry.2.1 = t) d) = None.
Proof.
  intros Hne. induction 1 as [|[k' [l' t']] d Hown _ IH]; [done|].
  rewrite filter_cons. cbn [fst snd] in *.
  destruct (decide (l' = t)) as [->|]; [|done]. cbn [Dict.get].
  destruct (decide (k = k')) as [<-|Hk]; [|done].
  by rewrite (Hown eq_refl) in Hne.
Qed.

Lemma owners_agree_entry evs d k l (start : datetime) e :
  owners_agree evs d → Dict.get k d = Some (l, start) →
  e ∈ evs → session_id e = k → login e = l.
Proof.
  intros Hown Hg%get_elem_of He Hk. unfold owners_agree in Hown.
  rewrite Forall_forall in Hown. by apply (Hown _ Hg e).
Qed.

(** The entries of the session id of an event of the log are its own. *)
Lemma owners_agree_mine evs d e :
  unshared_sessions evs → owners_agree evs d → e ∈ evs →
  Forall (fun entry : string * (string * datetime) =>
            entry.1 = session_id e → entry.2.1 = login e) d.
Proof.
  intros _ Hown He. eapply Forall_impl; [exact Hown|].
  intros entry Hentry Hk. symmetry. by apply Hentry.
Qed.

End projection_facts.

Section projection_run.
Implicit Types (st : state) (ev : event).

Lemma projects_step t evs st1 st2 ev :
  t ≠ "" → unshared_sessions evs → ev ∈ evs →
  owners_agree evs (start_times st1) → projects t st1 st2 →
  owners_agree evs (start_times (process_event None st1 ev))
  ∧ projects t (process_event None st1 ev) (process_event (Some t) st2 ev).
Proof.
  intros Ht Hun Hev Hown (Htab & Htot & Hnone & Hmiss).
  pose proof (owners_agree_mine evs _ ev Hun Hown Hev) as Hmine.
  rewrite (process_event_pass None) by done.
  assert (Hnew : ∀ ts, owners_agree evs
            (Dict.set (session_id ev) (login ev, ts) (start_times st1))).
  { intros ts. apply Forall_set; [|done]. simpl. intros e He Hk.
    by apply Hun. }
  destruct (decide (login ev = t)) as [Hl|Hl].
  - (* an event of the target login: both passes take it *)
    rewrite process_event_pass
      by (rewrite filtered_out_some by done; by rewrite bool_decide_eq_true_2).
    rewrite Hl in Hmine.
    destruct (action_cases ev) as [Ha|[Ha|[Ha1 Ha2]]].
    + rewrite !transition_start by done. split; [apply Hnew|].
      split_and!; cbn [start_times total_time missing_start_logs]; try done.
      by rewrite Hl, filter_set_own, Htab.
    + rewrite !transition_stop by done.
      rewrite Htab, get_filter_own by done.
      destruct (Dict.get _ (start_times st1)) as [[l0 t0]|] eqn:Hg.
      * assert (l0 = login ev) as ->.
        { symmetry. by eapply owners_agree_entry. }
        rewrite !decide_True by done.
        split; [by apply Forall_del|].
        split_and!; cbn [start_times total_time missing_start_logs].
        -- by rewrite filter_del.
        -- unfold add_total, total_of. rewrite Hl, !lookup_insert_eq.
           by rewrite Htot.
        -- intros l Hne. unfold add_total. rewrite Hl.
           rewrite lookup_insert_ne by done. by apply Hnone.
        -- done.
      * split; [done|].
        split_and!; cbn [start_times total_time missing_start_logs]; try done.
        rewrite filter_app, Hmiss. f_equal.
        by rewrite filter_cons_True.
    + by rewrite !transition_other.
  - (* an event of another login: the filtered pass skips it *)
    rewrite process_event_skip
      by (rewrite filtered_out_some by done; by rewrite bool_decide_eq_false_2).
    destruct (action_cases ev) as [Ha|[Ha|[Ha1 Ha2]]].
    + rewrite transition_start by done. split; [apply Hnew|].
      split_and!; cbn [start_times total_time missing_start_logs]; try done.
      by rewrite filter_set_other.
    + rewrite transition_stop by done.
      destruct (Dict.get _ (start_times st1)) as [[l0 t0]|] eqn:Hg.
      * assert (l0 = login ev) as ->.
        { symmetry. by eapply owners_agree_entry. }
        rewrite decide_True by done.
        split; [by apply Forall_del|].
        split_and!; cbn [start_times total_time missing_start_logs].
        -- rewrite filter_del, <- Htab. symmetry. apply del_absent.
           rewrite Htab. by eapply get_filter_other.
        -- unfold add_total. by rewrite lookup_insert_ne.
        -- done.
        -- done.
      * split; [done|].
        split_and!; cbn [start_times total_time missing_start_logs]; try done.
        rewrite filter_app, filter_cons_False, app_nil_r; done.
    + by rewrite transition_other.
Qed.

Lemma projects_run t evs evs' st1 st2 :
  t ≠ "" → unshared_sessions evs → (∀ e, e ∈ evs' → e ∈ evs) →
  owners_agree evs (start_times st1) → projects t st1 st2 →
  projects t (process_events None st1 evs') (process_events (Some t) st2 evs').
Proof.
  intros Ht Hun. revert st1 st2.
  induction evs' as [|ev evs' IH]; intros st1 st2 Hsub Hown Hproj; [done|].
  rewrite !process_events_cons.
  destruct (projects_step t evs st1 st2 ev) as [Hown' Hproj']; try done.
  { apply Hsub. by left. }
  apply IH; try done. intros e He. apply Hsub. by right.
Qed.

End projection_run.

(** X15. When no session id of the log is used by two logins, filtering
    by a login only selects: that login's total is the one of the
    unfiltered run, and the diagnostics are the unfiltered ones that name
    the login, in the same order.  No other login has a total. *)
Theorem filter_selects_when_sessions_unshared (t : string) (evs : list event) :
  t ≠ "" → unshared_sessions evs →
  (aggregate (Some t) evs).1 !! t = (aggregate None evs).1 !! t
  ∧ (∀ l, l ≠ t → (aggregate (Some t) evs).1 !! l = None)
  ∧ (aggregate (Some t) evs).2
    = filter (fun d => diagnostic_login d = t) (aggregate None evs).2.
Proof.
  intros Ht Hun.
  assert (Hproj : projects t (process_events None initial evs)
                              (process_events (Some t) initial evs)).
  { apply (projects_run t evs); [done|done|done|constructor|].
    unfold projects. simpl. by split_and!. }
  destruct Hproj as (Htab & Htot & Hnone & Hmiss).
  unfold aggregate, result_of. cbn [fst snd].
  split_and!; [done|done|].
  destruct (pass_invariant_run (Some t) initial evs (pass_invariant_initial _))
    as (_ & _ & Hlog).
  rewrite (unterminated_all (Some t)) by done.
  rewrite (unterminated_all None) by (apply Forall_forall; by intros).
  rewrite filter_app, Hmiss, Htab. f_equal.
  generalize (start_times (process_events None initial evs)).
  induction l as [|[sid [l0 t0]] l IH]; [done|].
  cbn [List.map]. rewrite !filter_cons. cbn [fst snd diagnostic_login
    unterminated_entry].
  destruct (decide (l0 = t)); cbn [List.map]; by rewrite IH.
Qed.

(* ===================================================================== *)
(** ** What the two front ends show *)
(* ===================================================================== *)

Section view_facts.
Implicit Types (st : state) (ev : event) (target : option string).

Lemma starts_with_app needle rest :
  Text.starts_with needle (needle ++ rest) = true.
Proof.
  induction needle as [|x needle IH]; [done|].
  simpl. by rewrite Z.eqb_refl, IH.
Qed.

Lemma occurs_in_app before needle rest :
  Text.occurs_in needle (before ++ needle ++ rest) = true.
Proof.
  assert (Hstart : ∀ hay, Text.starts_with needle hay = true →
                           Text.occurs_in needle hay = true).
  { intros [|c hay] Hs; simpl; by rewrite Hs. }
  induction before as [|c before IH].
  - cbn [app]. apply Hstart, starts_with_app.
  - cbn [app Text.occurs_in]. rewrite IH. apply orb_true_r.
Qed.

(** The text of a diagnostic holds the login that the diagnostic names. *)
Lemma render_names_login d :
  Text.occurs_in (Text.latin (diagnostic_login d)) (render d) = true.
Proof. destruct d; apply occurs_in_app. Qed.

Lemma passing_invariant_step target st ev :
  Forall (fun d => filtered_out target (diagnostic_login d) = false)
         (missing_start_logs st)
  ∧ (∀ l, is_Some (total_time st !! l) → filtered_out target l = false) →
  Forall (fun d => filtered_out target (diagnostic_login d) = false)
         (missing_start_logs (process_event target st ev))
  ∧ (∀ l, is_Some (total_time (process_event target st ev) !! l) →
          filtered_out target l = false).
Proof.
  intros [Hdiag Htot]. unfold process_event.
  destruct (filtered_out target (login ev)) eqn:Hf; [done|].
  destruct (action_cases ev) as [Ha|[Ha|[Ha1 Ha2]]].
  - by rewrite transition_start.
  - rewrite transition_stop by done.
    destruct (Dict.get _ _) as [[l0 t0]|].
    + destruct (decide (l0 = login ev)); simpl.
      * split; [done|]. intros l. unfold add_total.
        destruct (decide (login ev = l)) as [<-|Hne]; [done|].
        rewrite lookup_insert_ne by done. apply Htot.
      * split; [|done]. apply Forall_app. split; [done|]. by repeat constructor.
    + simpl. split; [|done].
      apply Forall_app. split; [done|]. by repeat constructor.
  - by rewrite transition_other.
Qed.

Lemma passing_invariant_run target evs :
  Forall (fun d => filtered_out target (diagnostic_login d) = false)
         (aggregate target evs).2
  ∧ (∀ l, is_Some ((aggregate target evs).1 !! l) →
          filtered_out target l = false).
Proof.
  unfold aggregate, result_of. cbn [fst snd].
  assert (Hrun : ∀ st,
    Forall (fun d => filtered_out target (diagnostic_login d) = false)
           (missing_start_logs st)
    ∧ (∀ l, is_Some (total_time st !! l) → filtered_out target l = false) →
    Forall (fun d => filtered_out target (diagnostic_login d) = false)
           (missing_start_logs (process_events target st evs))
    ∧ (∀ l, is_Some (total_time (process_events target st evs) !! l) →
            filtered_out target l = false)).
  { induction evs as [|ev evs IH]; intros st Hst; [done|].
    rewrite process_events_cons. by apply IH, passing_invariant_step. }
  destruct (Hrun initial) as [Hdiag Htot].
  { split; [constructor|]. intros l [x Hx]. simpl in Hx.
    by rewrite lookup_empty in Hx. }
  split; [|done]. apply Forall_app. split; [done|].
  destruct (pass_invariant_run target initial evs (pass_invariant_initial _))
    as (_ & _ & Hlog).
  rewrite unterminated_all by done.
  induction Hlog as [|[sid [l t0]] table Hl _ IH]; [constructor|].
  cbn [List.map]. by constructor.
Qed.

Lemma filter_all {A : Type} (P : A → Prop) `{!∀ x, Decision (P x)}
  (l : list A) :
  Forall P l → filter P l = l.
Proof.
  induction 1 as [|x l Hx _ IH]; [done|].
  by rewrite filter_cons_True, IH.
Qed.

End view_facts.

(** X16. The command-line tool prints every diagnostic that
    [calculate_work_time] returns: with [--login] it keeps those whose
    text holds the login, and every diagnostic of a filtered pass names
    that login.  The GUI lists the returned diagnostics without such a
    test, so both front ends show the same ones. *)
Theorem cli_shows_every_diagnostic (rows : list (list string))
  (login : option string) :
  Cli.shown_errors login (calculate_work_time rows login).2
  = (calculate_work_time rows login).2.
Proof.
  unfold Cli.shown_errors. destruct login as [l|]; [|done].
  destruct (decide (l = "")) as [|Hl]; [done|].
  apply filter_all. rewrite calculate_work_time_events.
  destruct (passing_invariant_run (Some l) (events_of parse_log_line rows))
    as [Hdiag _].
  eapply Forall_impl; [exact Hdiag|]. intros d Hd. simpl in Hd.
  rewrite filtered_out_some in Hd by done.
  apply negb_false_iff, bool_decide_eq_true in Hd.
  rewrite <- Hd. apply render_names_login.
Qed.

(** X17. With a login that has no matched pair in the log, the two front
    ends differ: the command-line tool prints that login's total as
    00:00:00, the GUI shows the text for "no interval found".  When the
    login has a total, both show it, formatted by [format_duration]. *)
Theorem front_ends_on_filtered_login (log_file : string)
  (rows : list (list string)) (t : string) :
  t ≠ "" →
  match (calculate_work_time rows (Some t)).1 !! t with
  | None =>
      head (Cli.stdout (Cli.main log_file (Some rows) (Some t)))
      = Some (Msg.total_for ++ Text.latin t ++ Text.latin ": "
              ++ Text.latin "00:00:00")
      ∧ GuiView.results_text (GuiView.run_calculation rows t false)
        = [Msg.none_found]
  | Some seconds =>
      head (Cli.stdout (Cli.main log_file (Some rows) (Some t)))
      = Some (Msg.total_for ++ Text.latin t ++ Text.latin ": "
              ++ Text.latin (format_duration seconds))
      ∧ GuiView.results_text (GuiView.run_calculation rows t false)
        = [Msg.total_for ++ Text.latin t ++ Text.latin ":" ++ [10];
           Text.latin (format_duration seconds) ++ [10]]
  end.
Proof.
  intros Ht.
  unfold Cli.main, GuiView.run_calculation.
  rewrite gui_calculate_work_time_same, decide_False by done.
  fold (calculate_work_time rows (Some t)).
  destruct (passing_invariant_run (Some t) (events_of parse_log_line rows))
    as [_ Hkeys].
  rewrite <- calculate_work_time_events in Hkeys.
  destruct (calculate_work_time rows (Some t)) as [total_time errors].
  cbn [fst snd] in *.
  assert (Htruthy : truthy (Some t) = true).
  { unfold truthy. by rewrite bool_decide_eq_false_2. }
  unfold Cli.report, GuiView.update_ui_after_calculation.
  cbn [Cli.stdout GuiView.results_text]. rewrite Htruthy.
  cbn [from_option id head app]. unfold total_of.
  destruct (total_time !! t) as [seconds|] eqn:Hlook; cbn [from_option id].
  - split; [done|].
    rewrite decide_False by (intros ->; by rewrite lookup_empty in Hlook).
    by rewrite decide_False.
  - split; [done|]. rewrite decide_True; [done|].
    apply map_eq. intros l. rewrite lookup_empty.
    destruct (total_time !! l) as [x|] eqn:Hl; [|done].
    assert (Hf : filtered_out (Some t) l = false) by (apply Hkeys; by eexists).
    rewrite filtered_out_some in Hf by done.
    apply negb_false_iff, bool_decide_eq_true in Hf. congruence.
Qed.

(** X18. A field wrapped in double quotes, with white space around the
    quotes, is read as what stands between the quotes, white space that
    is inside the quotes included. *)
Theorem quoted_field_is_unwrapped (ws1 ws2 field : list ascii) :
  Forall (fun c => PyStr.is_space c = true) ws1 →
  Forall (fun c => PyStr.is_space c = true) ws2 →
  PyStr.strip_by PyStr.is_quote field = field →
  trim (ws1 ++ ("034"%char :: field ++ ["034"%char]) ++ ws2) = field.
Proof.
  intros Hws1 Hws2 Hfield. unfold trim.
  rewrite strip_prefix, strip_suffix by done.
  rewrite strip_fixed by done.
  change ("034"%char :: field ++ ["034"%char])
    with (["034"%char] ++ field ++ ["034"%char]).
  rewrite strip_prefix, strip_suffix; [done| |]; by repeat constructor.
Qed.

Lemma quoted_field_is_unwrapped_witness :
  Forall (fun c => PyStr.is_space c = true) [" "%char]
  ∧ Forall (fun c => PyStr.is_space c = true) (list_ascii_of_string "  ")
  ∧ PyStr.strip_by PyStr.is_quote (list_ascii_of_string " alice ")
    = list_ascii_of_string " alice "
  ∧ trim ([" "%char]
          ++ ("034"%char
              :: list_ascii_of_string " alice " ++ ["034"%char])
          ++ list_ascii_of_string "  ")
    = list_ascii_of_string " alice ".
Proof.
  assert (H1 : Forall (fun c => PyStr.is_space c = true) [" "%char])
    by (by repeat constructor).
  assert (H2 : Forall (fun c => PyStr.is_space c = true)
                 (list_ascii_of_string "  ")) by (by repeat constructor).
  split; [exact H1|]. split; [exact H2|]. split; [reflexivity|].
  exact (quoted_field_is_unwrapped _ _ (list_ascii_of_string " alice ")
           H1 H2 eq_refl).
Defined.

(** X19. In a log whose events are in chronological order no total is
    negative, whatever the filter. *)
Theorem chronological_totals_nonnegative (target : option string)
  (evs : list event) (l : string) :
  chronological evs = true → 0 ≤ total_of (aggregate target evs).1 l.
Proof.
  intros Hchr. unfold aggregate, result_of. cbn [fst].
  pose proof (process_events_total_le target initial evs l
                (chronological_no_negative_match target evs Hchr)) as Hle.
  by change (total_of (total_time initial) l) with 0 in Hle.
Qed.

Lemma chronological_totals_nonnegative_witness :
  chronological [Sample.alice_start_9; Sample.bob_stop_10; Sample.alice_stop_17]
  = true
  ∧ 0 ≤ total_of
          (aggregate None
             [Sample.alice_start_9; Sample.bob_stop_10; Sample.alice_stop_17]).1
          "alice".
Proof.
  split; [reflexivity|].
  exact (chronological_totals_nonnegative None
           [Sample.alice_start_9; Sample.bob_stop_10; Sample.alice_stop_17]
           "alice" eq_refl).
Defined.

Lemma dropped_rows_are_reported_witness :
  mk_warning "carol;Start;bad;s9" ValueError
    ∈ warnings_of parse_log_line [["carol"; "Start"; "bad"; "s9"]]
  ∧ ∃ row, row ∈ [["carol"; "Start"; "bad"; "s9"]]
           ∧ (4 ≤ length row)%nat
           ∧ w_line (mk_warning "carol;Start;bad;s9" ValueError) = join_row row.
Proof.
  assert (Hin : mk_warning "carol;Start;bad;s9" ValueError
                  ∈ warnings_of parse_log_line [["carol"; "Start"; "bad"; "s9"]]).
  { apply list_elem_of_here. }
  split; [exact Hin|].
  exact (proj2 (proj2 (dropped_rows_are_reported
                         [["carol"; "Start"; "bad"; "s9"]])) _ Hin).
Defined.

Lemma written_line_reads_back_witness :
  PyDatetime.valid (timestamp Sample.alice_start_9) = true
  ∧ plain_field (login Sample.alice_start_9)
  ∧ plain_field (action Sample.alice_start_9)
  ∧ plain_field (session_id Sample.alice_start_9)
  ∧ parse_log_line "alice;Start;2024-01-01 09:00:00;s1"
    = (Some Sample.alice_start_9, []).
Proof.
  assert (Hl : plain_field (login Sample.alice_start_9)) by (by split).
  assert (Ha : plain_field (action Sample.alice_start_9)) by (by split).
  assert (Hs : plain_field (session_id Sample.alice_start_9)) by (by split).
  split; [reflexivity|]. split; [exact Hl|]. split; [exact Ha|].
  split; [exact Hs|].
  exact (written_line_reads_back Sample.alice_start_9 eq_refl Hl Ha Hs).
Defined.

Lemma filter_selects_when_sessions_unshared_witness :
  "alice" ≠ ""
  ∧ unshared_sessions
      [Sample.alice_start_9; Sample.bob_start_9; Sample.alice_stop_17]
  ∧ (aggregate (Some "alice")
       [Sample.alice_start_9; Sample.bob_start_9; Sample.alice_stop_17]).1
      !! "alice"
    = (aggregate None
         [Sample.alice_start_9; Sample.bob_start_9; Sample.alice_stop_17]).1
        !! "alice"
  ∧ (aggregate (Some "alice")
       [Sample.alice_start_9; Sample.bob_start_9; Sample.alice_stop_17]).2
    = filter (fun d => diagnostic_login d = "alice")
        (aggregate None
           [Sample.alice_start_9; Sample.bob_start_9; Sample.alice_stop_17]).2.
Proof.
  assert (Hne : "alice" ≠ "") by discriminate.
  assert (Hun : unshared_sessions
            [Sample.alice_start_9; Sample.bob_start_9; Sample.alice_stop_17]).
  { intros e1 e2 H1 H2 Hsid.
    repeat (apply elem_of_cons in H1 as [->|H1]);
      try (by apply elem_of_nil in H1);
      repeat (apply elem_of_cons in H2 as [->|H2]);
      try (by apply elem_of_nil in H2); try reflexivity; discriminate Hsid. }
  pose proof (filter_selects_when_sessions_unshared "alice" _ Hne Hun)
    as (Htot & _ & Hdiag).
  split; [exact Hne|]. split; [exact Hun|]. split; [exact Htot|exact Hdiag].
Defined.

Lemma front_ends_on_filtered_login_witness :
  "alice" ≠ ""
  ∧ head (Cli.stdout (Cli.main "log.csv" (Some Sample.open_start)
                        (Some "alice")))
    = Some (Msg.total_for ++ Text.latin "alice" ++ Text.latin ": "
            ++ Text.latin "00:00:00")
  ∧ GuiView.results_text (GuiView.run_calculation Sample.open_start "alice" false)
    = [Msg.none_found].
Proof.
  assert (Hne : "alice" ≠ "") by discriminate.
  split; [exact Hne|].
  exact (front_ends_on_filtered_login "log.csv" Sample.open_start "alice" Hne).
Defined.

(* ===================================================================== *)
(** ** Interleaving of sessions *)
(* ===================================================================== *)

Section interleaving_facts.
Implicit Types (st : state) (ev : event) (target : option string).







End interleaving_facts.


